(** * ContractIQ API (backend/main.py)

    A shallow embedding of the FastAPI backend: the three SQLAlchemy tables
    (users, documents, chunks), the per-request database session with its
    add / flush / commit / close life cycle, and the six routes.  Every value
    the Python code draws from its environment (uuid.uuid4, datetime.utcnow,
    np.random.rand, bcrypt.gensalt, the availability of the database) is an
    explicit oracle of the request, so that every route is a function. *)

From Stdlib Require Import ZArith NArith Bool Ascii String List Lia PrimFloat.
From Stdlib Require Import Sorted.
Import ListNotations.
Local Open Scope string_scope.
Local Open Scope list_scope.

(** ** Column types *)

(** UUID(as_uuid=True): the 128-bit value of the identifier.  [str(uuid)] is
    injective, so responses carry the identifier itself. *)
Definition UUID := N.

(** DateTime: microseconds since the epoch. *)
Definition DateTime := Z.

(** timedelta(days=7) *)
Definition timedelta_days (d : Z) : Z := (d * 86400 * 1000000)%Z.

(** Vector(384): a list of floats; the dimension is checked on INSERT. *)
Definition Embedding := list float.
Definition VECTOR_DIM : nat := 384.

(** The scalar values found in a chunk's metadata (JSONB). *)
Inductive pyval : Type :=
| PyNone
| PyInt (z : Z)
| PyStr (s : string).

(** A Python dict with string keys, in insertion order. *)
Definition dict := list (string * pyval).

Fixpoint dict_lookup (k : string) (d : dict) : option pyval :=
  match d with
  | [] => None
  | (k', v) :: d' => if String.eqb k' k then Some v else dict_lookup k d'
  end.

(** dict.get(key, default) *)
Definition dict_get (d : dict) (k : string) (default : pyval) : pyval :=
  match dict_lookup k d with
  | Some v => v
  | None => default
  end.

(** ** Models *)

Module User.
Record t : Type := mk {
  user_id : UUID;
  username : string;
  email : string;
  password_hash : string;
  created_at : DateTime
}.
End User.

Module Document.
Record t : Type := mk {
  doc_id : UUID;
  user_id : UUID;
  filename : string;
  uploaded_on : DateTime;
  expiry_date : option DateTime;
  status : string;
  risk_score : string
}.
End Document.

Module Chunk.
Record t : Type := mk {
  chunk_id : UUID;
  doc_id : UUID;
  user_id : UUID;
  text_chunk : string;
  embedding : Embedding;
  metadata : dict;
  page_number : pyval;
  created_at : DateTime
}.
End Chunk.

(** The database: one list per table, rows in the order of their INSERT. *)
Record DB : Type := mkDB {
  users : list User.t;
  documents : list Document.t;
  chunks : list Chunk.t
}.

Definition empty_db : DB := mkDB [] [] [].

(** ** Exceptions and results *)

Inductive Exn : Type :=
| HTTPException (status_code : Z) (detail : string)
| IntegrityError (constraint : string)
| StatementError (what : string)
| OperationalError
| AttributeError (what : string)
| DependencyError (what : string)
| DataError (what : string)
| ValueError (what : string).

Inductive Result (A : Type) : Type :=
| Ok (a : A)
| Raise (e : Exn).
Arguments Ok {A} a.
Arguments Raise {A} e.

(** ** The environment of one request *)

Record Env : Type := mkEnv {
  uuid4 : nat -> UUID;            (* the k-th call of uuid.uuid4() *)
  utcnow : nat -> DateTime;       (* the k-th call of datetime.utcnow() *)
  rand : nat -> nat -> float;     (* component i of the k-th np.random.rand *)
  gensalt : string;               (* bcrypt.gensalt() *)
  store_up : nat -> bool;         (* does the k-th write round trip succeed *)
  uuid_in : string -> option UUID;  (* the database reads a text as a uuid *)
  int4in : string -> option Z       (* the database reads a text as an integer *)
}.

(** np.random.rand(384).tolist(), k-th call *)
Definition random_embedding (env : Env) (k : nat) : Embedding :=
  map (rand env k) (seq 0 VECTOR_DIM).

(** ** Values as the database takes them *)

(** An identifier as a request carries it: a text (the path parameter
    contract_id: str, the "sub" of a token).  [UuidText u] is str(u), the
    text of the UUID [u], which the database reads back as [u]; [Text s] is
    any text, which the database reads as a uuid or refuses. *)
Inductive IdText : Type :=
| UuidText (u : UUID)
| Text (s : string).

(** Comparing a UUID column with the text: the text is read as a uuid, and
    the statement fails with DataError when it is not one. *)
Definition id_of_text (env : Env) (t : IdText) : Result UUID :=
  match t with
  | UuidText u => Ok u
  | Text s =>
      match uuid_in env s with
      | Some u => Ok u
      | None => Raise (DataError "invalid input syntax for type uuid")
      end
  end.

(** Column(Integer): a 32-bit signed integer. *)
Definition INT4_MIN : Z := (-2147483648)%Z.
Definition INT4_MAX : Z := 2147483647%Z.

Definition fits_int4 (z : Z) : bool :=
  Z.leb INT4_MIN z && Z.leb z INT4_MAX.

(** What an Integer column stores for the value bound to it: None is NULL,
    an int must fit, a str is read as an integer by the database; the
    INSERT fails with DataError otherwise. *)
Definition integer_column (env : Env) (v : pyval) : Result pyval :=
  match v with
  | PyNone => Ok PyNone
  | PyInt z =>
      if fits_int4 z then Ok (PyInt z)
      else Raise (DataError "integer out of range")
  | PyStr s =>
      match int4in env s with
      | Some z =>
          if fits_int4 z then Ok (PyInt z)
          else Raise (DataError "integer out of range")
      | None => Raise (DataError "invalid input syntax for type integer")
      end
  end.

(** Vector(384), binding the parameter: a list of another length is
    refused before the statement is sent. *)
Definition vector_bind (v : Embedding) : Result Embedding :=
  if Nat.eqb (List.length v) VECTOR_DIM then Ok v
  else Raise (StatementError "expected 384 dimensions").

(** ** Objects handed to Session.add, before their defaults are drawn *)

Inductive NewRow : Type :=
| NewUser (username email password_hash : string)
| NewDocument (user_id : UUID) (filename status risk_score : string)
| NewChunk (doc_id user_id : UUID) (text_chunk : string)
           (embedding : Embedding) (metadata : dict) (page_number : pyval).

Inductive Row : Type :=
| RowUser (u : User.t)
| RowDocument (d : Document.t)
| RowChunk (c : Chunk.t).

(** ** INSERT, with the constraints the columns declare *)

Definition has_user (db : DB) (uid : UUID) : bool :=
  existsb (fun u => N.eqb (User.user_id u) uid) (users db).

Definition has_document (db : DB) (did : UUID) : bool :=
  existsb (fun d => N.eqb (Document.doc_id d) did) (documents db).

Definition has_chunk (db : DB) (cid : UUID) : bool :=
  existsb (fun c => N.eqb (Chunk.chunk_id c) cid) (chunks db).

Definition has_email (db : DB) (e : string) : bool :=
  existsb (fun u => String.eqb (User.email u) e) (users db).

Definition insert_user (db : DB) (u : User.t) : Result DB :=
  if has_user db (User.user_id u) then Raise (IntegrityError "users_pkey")
  else if has_email db (User.email u) then Raise (IntegrityError "users_email_key")
  else Ok (mkDB (users db ++ [u]) (documents db) (chunks db)).

Definition insert_document (db : DB) (d : Document.t) : Result DB :=
  if has_document db (Document.doc_id d) then Raise (IntegrityError "documents_pkey")
  else if negb (has_user db (Document.user_id d))
       then Raise (IntegrityError "documents_user_id_fkey")
  else Ok (mkDB (users db) (documents db ++ [d]) (chunks db)).

(** The row [c] holds the values as the columns took them (insert_row);
    the embedding column is vector(384). *)
Definition insert_chunk (db : DB) (c : Chunk.t) : Result DB :=
  if negb (Nat.eqb (List.length (Chunk.embedding c)) VECTOR_DIM)
  then Raise (StatementError "expected 384 dimensions")
  else if has_chunk db (Chunk.chunk_id c) then Raise (IntegrityError "chunks_pkey")
  else if negb (has_document db (Chunk.doc_id c))
       then Raise (IntegrityError "chunks_doc_id_fkey")
  else if negb (has_user db (Chunk.user_id c))
       then Raise (IntegrityError "chunks_user_id_fkey")
  else Ok (mkDB (users db) (documents db) (chunks db ++ [c])).

(** ** The session of one request (SessionLocal(), autoflush=False)

    [committed] is what every other request sees; [working] is the view of
    the open transaction (committed rows and the rows flushed so far);
    [pending] are the objects given to [db.add] and not flushed yet.  The
    counters say how many values were drawn from each oracle of [Env]. *)
Record Session : Type := mkSession {
  committed : DB;
  working : DB;
  pending : list NewRow;
  uuid_calls : nat;
  now_calls : nat;
  rand_calls : nat;
  trips : nat
}.

Definition begin (db : DB) : Session := mkSession db db [] 0 0 0 0.

(** A computation inside a request: it may raise, and it threads the session. *)
Definition M (A : Type) : Type := Session -> Result A * Session.

Definition ret {A : Type} (a : A) : M A := fun s => (Ok a, s).

Definition raise {A : Type} (e : Exn) : M A := fun s => (Raise e, s).

(** The outcome of a call that does not touch the session. *)
Definition lift_result {A : Type} (r : Result A) : M A :=
  match r with
  | Ok a => ret a
  | Raise e => raise e
  end.

Definition bind {A B : Type} (m : M A) (k : A -> M B) : M B :=
  fun s =>
    match m s with
    | (Ok a, s') => k a s'
    | (Raise e, s') => (Raise e, s')
    end.

Notation "x <- m ;; k" := (bind m (fun x => k))
  (at level 61, m at next level, right associativity).

Definition draw_uuid (env : Env) : M UUID :=
  fun s => (Ok (uuid4 env (uuid_calls s)),
            mkSession (committed s) (working s) (pending s)
                      (S (uuid_calls s)) (now_calls s) (rand_calls s) (trips s)).

Definition draw_now (env : Env) : M DateTime :=
  fun s => (Ok (utcnow env (now_calls s)),
            mkSession (committed s) (working s) (pending s)
                      (uuid_calls s) (S (now_calls s)) (rand_calls s) (trips s)).

Definition draw_rand (env : Env) : M Embedding :=
  fun s => (Ok (random_embedding env (rand_calls s)),
            mkSession (committed s) (working s) (pending s)
                      (uuid_calls s) (now_calls s) (S (rand_calls s)) (trips s)).

(** One write round trip to the database; it raises when the store is down. *)
Definition round_trip (env : Env) : M unit :=
  fun s =>
    let s' := mkSession (committed s) (working s) (pending s)
                        (uuid_calls s) (now_calls s) (rand_calls s) (S (trips s)) in
    if store_up env (trips s) then (Ok tt, s') else (Raise OperationalError, s').

Definition set_working (w : DB) : M unit :=
  fun s => (Ok tt, mkSession (committed s) w (pending s)
                             (uuid_calls s) (now_calls s) (rand_calls s) (trips s)).

Definition set_pending (p : list NewRow) : M unit :=
  fun s => (Ok tt, mkSession (committed s) (working s) p
                             (uuid_calls s) (now_calls s) (rand_calls s) (trips s)).

(** db.query(...): reads see the open transaction. *)
Definition db_query : M DB := fun s => (Ok (working s), s).

(** db.add(obj) *)
Definition db_add (r : NewRow) : M unit :=
  fun s => set_pending (pending s ++ [r]) s.

Definition lift_insert {A : Type} (f : DB -> A -> Result DB) (a : A) : M unit :=
  fun s =>
    match f (working s) a with
    | Ok w => set_working w s
    | Raise e => (Raise e, s)
    end.

(** INSERT of one object: the column defaults (uuid.uuid4, datetime.utcnow)
    are drawn, the values are taken as their columns take them (the
    embedding by Vector(384), the page number by Integer), then the row is
    written into the transaction. *)
Definition insert_row (env : Env) (r : NewRow) : M Row :=
  match r with
  | NewUser un em ph =>
      id <- draw_uuid env ;;
      now <- draw_now env ;;
      let u := User.mk id un em ph now in
      _ <- lift_insert insert_user u ;;
      ret (RowUser u)
  | NewDocument uid fn st rs =>
      id <- draw_uuid env ;;
      now <- draw_now env ;;
      let d := Document.mk id uid fn now None st rs in
      _ <- lift_insert insert_document d ;;
      ret (RowDocument d)
  | NewChunk did uid tx em md pg =>
      id <- draw_uuid env ;;
      now <- draw_now env ;;
      em <- lift_result (vector_bind em) ;;
      page <- lift_result (integer_column env pg) ;;
      let c := Chunk.mk id did uid tx em md page now in
      _ <- lift_insert insert_chunk c ;;
      ret (RowChunk c)
  end.

Fixpoint flush_rows (env : Env) (rows : list NewRow) : M (list Row) :=
  match rows with
  | [] => ret []
  | r :: rows' =>
      x <- insert_row env r ;;
      xs <- flush_rows env rows' ;;
      ret (x :: xs)
  end.

(** A failed flush rolls the transaction back. *)
Definition rollback_on_error {A : Type} (m : M A) : M A :=
  fun s =>
    match m s with
    | (Ok a, s') => (Ok a, s')
    | (Raise e, s') =>
        (Raise e, mkSession (committed s') (committed s') []
                            (uuid_calls s') (now_calls s') (rand_calls s') (trips s'))
    end.

(** db.flush(): writes the pending objects, in the order they were added,
    and returns the rows as the session now holds them. *)
Definition db_flush (env : Env) : M (list Row) :=
  fun s =>
    match pending s with
    | [] => (Ok [], s)
    | rows =>
        rollback_on_error
          (_ <- round_trip env ;;
           _ <- set_pending [] ;;
           flush_rows env rows) s
    end.

(** db.commit(): flush, then COMMIT; only now do the rows become visible. *)
Definition db_commit (env : Env) : M (list Row) :=
  rows <- db_flush env ;;
  _ <- rollback_on_error (round_trip env) ;;
  fun s => (Ok rows, mkSession (working s) (working s) (pending s)
                               (uuid_calls s) (now_calls s) (rand_calls s) (trips s)).

(** get_db: open a session, run the route, close the session.  Closing
    discards whatever the open transaction holds. *)
Definition run {A : Type} (db : DB) (m : M A) : Result A * DB :=
  let (r, s) := m (begin db) in (r, committed s).

(** The attributes of an object read back after its flush. *)
Definition the_user (rows : list Row) : M User.t :=
  match rows with
  | [RowUser u] => ret u
  | _ => raise (AttributeError "user_id")
  end.

Definition the_document (rows : list Row) : M Document.t :=
  match rows with
  | [RowDocument d] => ret d
  | _ => raise (AttributeError "doc_id")
  end.

Fixpoint for_each {A : Type} (l : list A) (f : A -> M unit) : M unit :=
  match l with
  | [] => ret tt
  | a :: l' => _ <- f a ;; for_each l' f
  end.

Fixpoint map_m {A B : Type} (f : A -> M B) (l : list A) : M (list B) :=
  match l with
  | [] => ret []
  | a :: l' => b <- f a ;; bs <- map_m f l' ;; ret (b :: bs)
  end.

(** enumerate(l) *)
Definition enumerate {A : Type} (l : list A) : list (Z * A) :=
  combine (map Z.of_nat (seq 0 (List.length l))) l.

(** ** Request and response shapes *)

Module UploadFile.
Record t : Type := mk {
  filename : string;
  content_type : string;
  content : list Byte.byte
}.
End UploadFile.

(** What the parsing service returns (the dict of mock_llamacloud_parse). *)
Module Parsed.
Record chunk : Type := mkChunk {
  chunk_id : UUID;
  text : string;
  embedding : Embedding;
  metadata : dict
}.
Record t : Type := mk {
  document_id : UUID;
  chunks : list chunk
}.
End Parsed.

(** The claims of a JWT: jwt.encode / jwt.decode are not modelled beyond them. *)
Module Token.
Record t : Type := mk {
  sub : UUID;
  exp : DateTime
}.
End Token.

(** HTTPBearer credentials, as jwt.decode sees them: either the decoding
    raises PyJWTError, or it yields a payload whose "sub", a text, may be
    missing. *)
Inductive Credentials : Type :=
| InvalidJWT
| Payload (sub : option IdText).

Module UserInfo.
Record t : Type := mk {
  id : UUID;
  username : string;
  email : string
}.
End UserInfo.

Module AuthReply.
Record t : Type := mk {
  token : Token.t;
  user : UserInfo.t
}.
End AuthReply.

Module UploadReply.
Record t : Type := mk {
  document_id : UUID;
  filename : string;
  chunks_processed : nat
}.
End UploadReply.

Module ContractSummary.
Record t : Type := mk {
  id : UUID;
  name : string;
  uploaded_on : DateTime;
  status : string;
  risk_score : string
}.
End ContractSummary.

Module ChunkView.
Record t : Type := mk {
  id : UUID;
  text : string;
  page : pyval;
  metadata : dict
}.
End ChunkView.

Module ContractDetail.
Record t : Type := mk {
  id : UUID;
  name : string;
  status : string;
  risk_score : string;
  chunks : list ChunkView.t
}.
End ContractDetail.

Module Source.
Record t : Type := mk {
  contract_name : string;
  excerpt : string;
  page : pyval;
  relevance : Z
}.
End Source.

Module AskReply.
Record t : Type := mk {
  answer : string;
  confidence : Z;
  sources : list Source.t
}.
End AskReply.

(** ** Dependencies and routes *)

(** get_current_user *)
Definition get_current_user (env : Env) (credentials : Credentials) : M User.t :=
  match credentials with
  | InvalidJWT => raise (HTTPException 401 "Invalid token")
  | Payload None => raise (HTTPException 401 "Invalid token")
  | Payload (Some sub) =>
      db <- db_query ;;
      user_id <- lift_result (id_of_text env sub) ;;
      match find (fun u => N.eqb (User.user_id u) user_id) (users db) with
      | None => raise (HTTPException 401 "User not found")
      | Some user => ret user
      end
  end.

(** mock_llamacloud_parse *)
Definition mock_llamacloud_parse (env : Env) (file_content : list Byte.byte)
    (filename : string) : M Parsed.t :=
  document_id <- draw_uuid env ;;
  chunk_id1 <- draw_uuid env ;;
  embedding1 <- draw_rand env ;;
  chunk_id2 <- draw_uuid env ;;
  embedding2 <- draw_rand env ;;
  ret (Parsed.mk document_id
         [ Parsed.mkChunk chunk_id1
             "Termination clause: Either party may terminate with 90 days' notice."
             embedding1
             [("page", PyInt 2); ("contract_name", PyStr filename)];
           Parsed.mkChunk chunk_id2
             "Liability cap: Limited to 12 months' fees."
             embedding2
             [("page", PyInt 5); ("contract_name", PyStr filename)] ]).

Definition ALLOWED_CONTENT_TYPES : list string :=
  [ "application/pdf"; "text/plain";
    "application/vnd.openxmlformats-officedocument.wordprocessingml.document" ].

(** The Chunk object upload_contract builds from one parsed chunk. *)
Definition new_chunk (document : Document.t) (current_user : User.t)
    (chunk_data : Parsed.chunk) : NewRow :=
  NewChunk (Document.doc_id document)
           (User.user_id current_user)
           (Parsed.text chunk_data)
           (Parsed.embedding chunk_data)
           (Parsed.metadata chunk_data)
           (dict_get (Parsed.metadata chunk_data) "page" (PyInt 1)).

(** upload_contract, for any parsing service [parse]. *)
Definition upload_contract_with
    (parse : Env -> list Byte.byte -> string -> M Parsed.t)
    (env : Env) (file : UploadFile.t) (current_user : User.t) : M UploadReply.t :=
  if negb (existsb (String.eqb (UploadFile.content_type file)) ALLOWED_CONTENT_TYPES)
  then raise (HTTPException 400 "Unsupported file type")
  else
    let content := UploadFile.content file in
    parse_result <- parse env content (UploadFile.filename file) ;;
    _ <- db_add (NewDocument (User.user_id current_user)
                             (UploadFile.filename file) "Active" "Low") ;;
    rows <- db_flush env ;;
    document <- the_document rows ;;
    _ <- for_each (Parsed.chunks parse_result)
           (fun chunk_data => db_add (new_chunk document current_user chunk_data)) ;;
    _ <- db_commit env ;;
    ret (UploadReply.mk (Document.doc_id document)
                        (UploadFile.filename file)
                        (List.length (Parsed.chunks parse_result))).

(** upload_contract (POST /api/upload) *)
Definition upload_contract : Env -> UploadFile.t -> User.t -> M UploadReply.t :=
  upload_contract_with mock_llamacloud_parse.

(** list_contracts (GET /api/contracts) *)
Definition list_contracts (current_user : User.t) : M (list ContractSummary.t) :=
  db <- db_query ;;
  let documents :=
    filter (fun d => N.eqb (Document.user_id d) (User.user_id current_user))
           (documents db) in
  ret (map (fun doc => ContractSummary.mk (Document.doc_id doc)
                                          (Document.filename doc)
                                          (Document.uploaded_on doc)
                                          (Document.status doc)
                                          (Document.risk_score doc))
           documents).

(** get_contract (GET /api/contracts/{contract_id}) *)
Definition get_contract (env : Env) (contract_id : IdText) (current_user : User.t)
    : M ContractDetail.t :=
  db <- db_query ;;
  contract_id <- lift_result (id_of_text env contract_id) ;;
  match find (fun d => N.eqb (Document.doc_id d) contract_id
                       && N.eqb (Document.user_id d) (User.user_id current_user))
             (documents db) with
  | None => raise (HTTPException 404 "Contract not found")
  | Some document =>
      let chunks :=
        filter (fun c => N.eqb (Chunk.doc_id c) (Document.doc_id document))
               (chunks db) in
      ret (ContractDetail.mk (Document.doc_id document)
                             (Document.filename document)
                             (Document.status document)
                             (Document.risk_score document)
                             (map (fun chunk => ChunkView.mk (Chunk.chunk_id chunk)
                                                             (Chunk.text_chunk chunk)
                                                             (Chunk.page_number chunk)
                                                             (Chunk.metadata chunk))
                                  chunks))
  end.

(** chunk.document: the relationship is loaded by primary key. *)
Definition chunk_document (chunk : Chunk.t) : M Document.t :=
  db <- db_query ;;
  match find (fun d => N.eqb (Document.doc_id d) (Chunk.doc_id chunk)) (documents db) with
  | Some d => ret d
  | None => raise (AttributeError "filename")
  end.

Definition answer_text (query : string) : string :=
  ("Based on your contracts, here's what I found regarding '" ++ query ++ "': ")
  ++ "Your contracts contain several relevant clauses. The most important considerations are "
  ++ "termination procedures, liability limitations, and renewal terms.".

(** One entry of "sources", from position [i] and [chunk]. *)
Definition source_of (ic : Z * Chunk.t) : M Source.t :=
  let (i, chunk) := ic in
  document <- chunk_document chunk ;;
  ret (Source.mk (Document.filename document)
                 (Chunk.text_chunk chunk)
                 (Chunk.page_number chunk)
                 (85 + (i * 3))%Z).

(** The rows of [Chunk] the route reads: filter on the owner, LIMIT 5. *)
Definition candidate_chunks (db : DB) (current_user : User.t) : list Chunk.t :=
  firstn 5 (filter (fun c => N.eqb (Chunk.user_id c) (User.user_id current_user))
                   (chunks db)).

(** query_contracts (POST /api/ask) *)
Definition query_contracts (env : Env) (query : string) (current_user : User.t)
    : M AskReply.t :=
  query_embedding <- draw_rand env ;;
  db <- db_query ;;
  let chunks := candidate_chunks db current_user in
  let answer := answer_text query in
  sources <- map_m source_of (enumerate (firstn 3 chunks)) ;;
  ret (AskReply.mk answer 94 sources).

(** The answer FastAPI sends for the outcome of a route. *)
Inductive Reply (A : Type) : Type :=
| Reply200 (body : A)
| ReplyError (status_code : Z) (detail : string).
Arguments Reply200 {A} body.
Arguments ReplyError {A} status_code detail.

Definition respond {A : Type} (r : Result A) : Reply A :=
  match r with
  | Ok a => Reply200 a
  | Raise (HTTPException status_code detail) => ReplyError status_code detail
  | Raise _ => ReplyError 500 "Internal Server Error"
  end.

(** One request against the database [db]: the reply and the database after. *)
Definition serve {A : Type} (db : DB) (m : M A) : Reply A * DB :=
  let (r, db') := run db m in (respond r, db').

Definition authenticated {A : Type} (env : Env) (credentials : Credentials)
    (route : User.t -> M A) : M A :=
  current_user <- get_current_user env credentials ;;
  route current_user.

Inductive Request : Type :=
| Signup (username email password : string)
| Login (email password : string)
| Upload (credentials : Credentials) (file : UploadFile.t)
| ListContracts (credentials : Credentials)
| GetContract (credentials : Credentials) (contract_id : IdText)
| Ask (credentials : Credentials) (query : string).

Inductive Body : Type :=
| BodyAuth (b : AuthReply.t)
| BodyUpload (b : UploadReply.t)
| BodyList (b : list ContractSummary.t)
| BodyDetail (b : ContractDetail.t)
| BodyAsk (b : AskReply.t).

Definition fmap {A B : Type} (f : A -> B) (m : M A) : M B :=
  a <- m ;; ret (f a).

Section Bcrypt.

(** bcrypt.hashpw(password, salt) and bcrypt.checkpw(password, hash); each
    may raise (ValueError for a password the library does not take). *)
Variable hashpw : string -> string -> Result string.
Variable checkpw : string -> string -> Result bool.

Definition auth_reply (env : Env) (user : User.t) : M AuthReply.t :=
  now <- draw_now env ;;
  let token := Token.mk (User.user_id user) (now + timedelta_days 7)%Z in
  ret (AuthReply.mk token
         (UserInfo.mk (User.user_id user) (User.username user) (User.email user))).

(** signup (POST /api/signup) *)
Definition signup (env : Env) (username email password : string) : M AuthReply.t :=
  db <- db_query ;;
  let existing_user := find (fun u => String.eqb (User.email u) email) (users db) in
  match existing_user with
  | Some _ => raise (HTTPException 400 "Email already registered")
  | None =>
      password_hash <- lift_result (hashpw password (gensalt env)) ;;
      _ <- db_add (NewUser username email password_hash) ;;
      rows <- db_commit env ;;
      user <- the_user rows ;;
      auth_reply env user
  end.

(** login (POST /api/login) *)
Definition login (env : Env) (email password : string) : M AuthReply.t :=
  db <- db_query ;;
  let user := find (fun u => String.eqb (User.email u) email) (users db) in
  match user with
  | None => raise (HTTPException 401 "Invalid credentials")
  | Some user =>
      matches <- lift_result (checkpw password (User.password_hash user)) ;;
      if negb matches
      then raise (HTTPException 401 "Invalid credentials")
      else auth_reply env user
  end.

(** The application: the route of each request, behind its dependencies. *)
Definition route (env : Env) (req : Request) : M Body :=
  match req with
  | Signup username email password =>
      fmap BodyAuth (signup env username email password)
  | Login email password =>
      fmap BodyAuth (login env email password)
  | Upload credentials file =>
      fmap BodyUpload (authenticated env credentials (upload_contract env file))
  | ListContracts credentials =>
      fmap BodyList (authenticated env credentials list_contracts)
  | GetContract credentials contract_id =>
      fmap BodyDetail
           (authenticated env credentials (get_contract env contract_id))
  | Ask credentials query =>
      fmap BodyAsk (authenticated env credentials (query_contracts env query))
  end.

Definition handle (env : Env) (db : DB) (req : Request) : Reply Body * DB :=
  serve db (route env req).

(** The databases the application can be in: it starts empty, and every
    request, in any environment, leads from one to the next. *)
Inductive reachable : DB -> Prop :=
| reachable_empty : reachable empty_db
| reachable_step (db : DB) (env : Env) (req : Request) :
    reachable db -> reachable (snd (handle env db req)).

End Bcrypt.

(** ** Vocabulary of the statements *)

(** A computation that leaves the database session alone (an outside
    service: it may draw random values, never read or write rows). *)
Definition session_free {A : Type} (m : M A) : Prop :=
  forall s, committed (snd (m s)) = committed s
            /\ working (snd (m s)) = working s
            /\ pending (snd (m s)) = pending s.

(** Row [c] of chunks is what upload_contract writes for [chunk_data]: the
    page number is what the Integer column stores for the page bound to it. *)
Definition persisted_from (env : Env) (document : Document.t)
    (current_user : User.t) (chunk_data : Parsed.chunk) (c : Chunk.t) : Prop :=
  Chunk.doc_id c = Document.doc_id document
  /\ Chunk.user_id c = User.user_id current_user
  /\ Chunk.text_chunk c = Parsed.text chunk_data
  /\ Chunk.embedding c = Parsed.embedding chunk_data
  /\ Chunk.metadata c = Parsed.metadata chunk_data
  /\ integer_column env (dict_get (Parsed.metadata chunk_data) "page" (PyInt 1))
     = Ok (Chunk.page_number c).

(** documents.doc_id is a primary key. *)
Definition documents_pk (db : DB) : Prop :=
  NoDup (map Document.doc_id (documents db)).

(** users.email is unique. *)
Definition users_email_unique (db : DB) : Prop :=
  NoDup (map User.email (users db)).

(** Every chunk points to a document of the database, and that document
    has the chunk's owner. *)
Definition chunk_owner_is_document_owner (db : DB) : Prop :=
  forall c, In c (chunks db) ->
    exists d, In d (documents db)
              /\ Document.doc_id d = Chunk.doc_id c
              /\ Document.user_id d = Chunk.user_id c.

(** What the page_number column holds, given what the metadata has under
    "page" ([None]: no such key). *)
Definition page_stored (env : Env) (page : option pyval) (stored : pyval)
    : Prop :=
  match page with
  | None => stored = PyInt 1
  | Some PyNone => stored = PyNone
  | Some (PyInt z) => stored = PyInt z /\ (INT4_MIN <= z <= INT4_MAX)%Z
  | Some (PyStr t) =>
      exists z, int4in env t = Some z /\ stored = PyInt z
                /\ (INT4_MIN <= z <= INT4_MAX)%Z
  end.

(** What every reachable database satisfies. *)
Definition invariant (db : DB) : Prop :=
  documents_pk db /\ chunk_owner_is_document_owner db /\ users_email_unique db.

Definition owned_by (current_user : User.t) (c : Chunk.t) : bool :=
  N.eqb (Chunk.user_id c) (User.user_id current_user).

(** Source [src] was built from chunk [c] of [db] at position [i]. *)
Definition source_from (db : DB) (ic : Z * Chunk.t) (src : Source.t) : Prop :=
  exists d, In d (documents db)
            /\ Document.doc_id d = Chunk.doc_id (snd ic)
            /\ Source.contract_name src = Document.filename d
            /\ Source.excerpt src = Chunk.text_chunk (snd ic)
            /\ Source.page src = Chunk.page_number (snd ic)
            /\ Source.relevance src = (85 + fst ic * 3)%Z.

Definition summary_of (doc : Document.t) : ContractSummary.t :=
  ContractSummary.mk (Document.doc_id doc) (Document.filename doc)
                     (Document.uploaded_on doc) (Document.status doc)
                     (Document.risk_score doc).

Definition ascending (l : list Z) : Prop := StronglySorted Z.le l.
Definition descending (l : list Z) : Prop := StronglySorted Z.ge l.

(** The similarity measures the retrieval is meant to rank by. *)
Definition inner_product (a b : Embedding) : float :=
  fold_left (fun acc xy => PrimFloat.add acc (PrimFloat.mul (fst xy) (snd xy)))
            (combine a b) 0%float.

Definition cosine_similarity (a b : Embedding) : float :=
  PrimFloat.div (inner_product a b)
                (PrimFloat.mul (PrimFloat.sqrt (inner_product a a))
                               (PrimFloat.sqrt (inner_product b b))).

(** ** The database's input syntax, for the examples *)

Definition hex_digit (c : ascii) : option N :=
  let n := N_of_ascii c in
  if (N.leb 48 n && N.leb n 57)%bool then Some (n - 48)%N
  else if (N.leb 97 n && N.leb n 102)%bool then Some (n - 87)%N
  else if (N.leb 65 n && N.leb n 70)%bool then Some (n - 55)%N
  else None.

(** Sixteen bytes of two hexadecimal digits each; a hyphen may follow
    every second byte but the last.  [i] counts the bytes read. *)
Fixpoint uuid_bytes (n i : nat) (s : string) (acc : N) : option (N * string) :=
  match n with
  | O => Some (acc, s)
  | S n' =>
      match s with
      | String c1 (String c2 rest) =>
          match hex_digit c1, hex_digit c2 with
          | Some h, Some l =>
              let rest' :=
                match rest with
                | String c rest'' =>
                    if (Ascii.eqb c "-"%char && Nat.odd i && Nat.ltb i 15)%bool
                    then rest'' else rest
                | EmptyString => rest
                end in
              uuid_bytes n' (S i) rest' (acc * 256 + h * 16 + l)%N
          | _, _ => None
          end
      | _ => None
      end
  end.

(** PostgreSQL's input syntax of uuid: 32 hexadecimal digits of either
    case, a hyphen allowed after each group of four, the whole optionally
    in braces. *)
Definition pg_uuid_in (s : string) : option UUID :=
  let (braces, src) :=
    match s with
    | String c rest => if Ascii.eqb c "{"%char then (true, rest) else (false, s)
    | EmptyString => (false, s)
    end in
  match uuid_bytes 16 0 src 0%N with
  | Some (v, rest) =>
      if String.eqb rest (if braces then "}" else "") then Some v else None
  | None => None
  end.

Definition is_space (c : ascii) : bool :=
  let n := N_of_ascii c in
  (N.eqb n 32 || (N.leb 9 n && N.leb n 13))%bool.

Fixpoint skip_spaces (s : string) : string :=
  match s with
  | String c rest => if is_space c then skip_spaces rest else s
  | EmptyString => s
  end.

Fixpoint read_digits (s : string) (acc : Z) (seen : bool)
    : option (Z * string) :=
  match s with
  | String c rest =>
      let n := N_of_ascii c in
      if (N.leb 48 n && N.leb n 57)%bool
      then read_digits rest (acc * 10 + Z.of_N (n - 48))%Z true
      else if seen then Some (acc, s) else None
  | EmptyString => if seen then Some (acc, s) else None
  end.

(** The decimal input syntax of integer: spaces, an optional sign, digits,
    spaces; the value must fit 32 bits. *)
Definition pg_int4in (s : string) : option Z :=
  let s1 := skip_spaces s in
  let (negative, s2) :=
    match s1 with
    | String c rest =>
        if Ascii.eqb c "-"%char then (true, rest)
        else if Ascii.eqb c "+"%char then (false, rest)
        else (false, s1)
    | EmptyString => (false, s1)
    end in
  match read_digits s2 0%Z false with
  | Some (z, rest) =>
      let v := if negative then (- z)%Z else z in
      if (String.eqb (skip_spaces rest) "" && fits_int4 v)%bool
      then Some v else None
  | None => None
  end.

(** ** A small deployment, for the examples *)

Module Demo.

(** A stand-in for bcrypt with the library's limit on the password: a
    password of more than 72 bytes raises ValueError. *)
Definition hashpw (password salt : string) : Result string :=
  if Nat.ltb 72 (String.length password)
  then Raise (ValueError "password cannot be longer than 72 bytes")
  else Ok (salt ++ password)%string.
Definition checkpw (password hash : string) : Result bool :=
  if Nat.ltb 72 (String.length password)
  then Raise (ValueError "password cannot be longer than 72 bytes")
  else Ok (String.eqb hash ("salt" ++ password)%string).

(** uuid4 counts from [base]; the clock reads [t], [t+1], ...; every
    random component is 0.5; the store is up; the database reads the
    syntax above. *)
Definition env_at (base : N) (t : Z) : Env :=
  mkEnv (fun k => (base + N.of_nat k)%N)
        (fun k => (t + Z.of_nat k)%Z)
        (fun _ _ => 0.5%float)
        "salt"
        (fun _ => true)
        pg_uuid_in
        pg_int4in.

(** The same, with the database going down at write round trip [j]. *)
Definition env_down_at (j : nat) (base : N) (t : Z) : Env :=
  mkEnv (fun k => (base + N.of_nat k)%N)
        (fun k => (t + Z.of_nat k)%Z)
        (fun _ _ => 0.5%float)
        "salt"
        (fun k => negb (Nat.eqb k j))
        pg_uuid_in
        pg_int4in.

(** The same as [env_at], with other random vectors: the first is
    1, 0, 1, 0, ... and all later ones are 1, 1, 1, ... *)
Definition env_skewed (base : N) (t : Z) : Env :=
  mkEnv (fun k => (base + N.of_nat k)%N)
        (fun k => (t + Z.of_nat k)%Z)
        (fun k i => if Nat.eqb k 0 then (if Nat.even i then 1%float else 0%float)
                    else 1%float)
        "salt"
        (fun _ => true)
        pg_uuid_in
        pg_int4in.

(** The same as [env_at], with every random component 1. *)
Definition env_ones (base : N) (t : Z) : Env :=
  mkEnv (fun k => (base + N.of_nat k)%N)
        (fun k => (t + Z.of_nat k)%Z)
        (fun _ _ => 1%float)
        "salt"
        (fun _ => true)
        pg_uuid_in
        pg_int4in.

Definition alice : User.t := User.mk 100%N "alice" "a@x.com" "saltpw1" 1000%Z.
Definition bob : User.t := User.mk 200%N "bob" "b@x.com" "saltpw2" 2000%Z.

Definition lease : UploadFile.t := UploadFile.mk "lease.pdf" "application/pdf" [].
Definition nda : UploadFile.t := UploadFile.mk "nda.txt" "text/plain" [].

Definition db1 : DB :=
  snd (handle hashpw checkpw (env_at 100%N 1000%Z) empty_db
              (Signup "alice" "a@x.com" "pw1")).
Definition db2 : DB :=
  snd (handle hashpw checkpw (env_at 200%N 2000%Z) db1
              (Signup "bob" "b@x.com" "pw2")).
(** alice uploads lease.pdf *)
Definition db3 : DB :=
  snd (handle hashpw checkpw (env_at 300%N 3000%Z) db2
              (Upload (Payload (Some (UuidText 100%N))) lease)).
(** then nda.txt, later *)
Definition db3_later : DB :=
  snd (handle hashpw checkpw (env_at 400%N 4000%Z) db3
              (Upload (Payload (Some (UuidText 100%N))) nda)).
(** or else two more uploads, the wall clock having been set back *)
Definition db4 : DB :=
  snd (handle hashpw checkpw (env_at 400%N 2000%Z) db3
              (Upload (Payload (Some (UuidText 100%N))) nda)).
Definition db5 : DB :=
  snd (handle hashpw checkpw (env_at 500%N 2500%Z) db4
              (Upload (Payload (Some (UuidText 100%N))) lease)).
(** alice uploads lease.pdf, parsed into two different vectors *)
Definition db_skewed : DB :=
  snd (handle hashpw checkpw (env_skewed 300%N 3000%Z) db2
              (Upload (Payload (Some (UuidText 100%N))) lease)).

(** A parsing service whose second chunk has no "page" in its metadata. *)
Definition parse_no_page (env : Env) (file_content : list Byte.byte)
    (filename : string) : M Parsed.t :=
  ret (Parsed.mk 1%N
         [ Parsed.mkChunk 2%N "Clause A" (random_embedding env 0) [("page", PyInt 7)];
           Parsed.mkChunk 3%N "Clause B" (random_embedding env 1)
                          [("contract_name", PyStr filename)] ]).

(** Parsing services whose only chunk has the page "7", a text, or the
    page 2^31. *)
Definition parse_text_page (env : Env) (file_content : list Byte.byte)
    (filename : string) : M Parsed.t :=
  ret (Parsed.mk 1%N
         [ Parsed.mkChunk 2%N "Clause A" (random_embedding env 0)
                          [("page", PyStr "7")] ]).

Definition parse_big_page (env : Env) (file_content : list Byte.byte)
    (filename : string) : M Parsed.t :=
  ret (Parsed.mk 1%N
         [ Parsed.mkChunk 2%N "Clause A" (random_embedding env 0)
                          [("page", PyInt 2147483648%Z)] ]).

(** A password of 73 bytes. *)
Definition long_password : string :=
  "aaaaaaaaaaaaaaaaaaaaaaaaaaaaaaaaaaaaaaaaaaaaaaaaaaaaaaaaaaaaaaaaaaaaaaaaa".

(** A parsing service that fails. *)
Definition parse_fails (env : Env) (file_content : list Byte.byte)
    (filename : string) : M Parsed.t :=
  raise (DependencyError "parse").

Definition termination_clause : string :=
  "Termination clause: Either party may terminate with 90 days' notice.".
Definition liability_cap : string :=
  "Liability cap: Limited to 12 months' fees.".

End Demo.

(** ** Vocabulary of the further properties *)

(** [m] keeps [P]: run from a session where [P] holds, it ends in one. *)
Definition keeps (P : Session -> Prop) {A : Type} (m : M A) : Prop :=
  forall s, P s -> P (snd (m s)).

(** The constraints the three tables declare: primary keys, the unique
    email, the foreign keys, the dimension of the vectors. *)
Definition schema_ok (db : DB) : Prop :=
  NoDup (map User.user_id (users db))
  /\ NoDup (map User.email (users db))
  /\ NoDup (map Document.doc_id (documents db))
  /\ NoDup (map Chunk.chunk_id (chunks db))
  /\ (forall d, In d (documents db) -> has_user db (Document.user_id d) = true)
  /\ (forall c, In c (chunks db) ->
         has_document db (Chunk.doc_id c) = true
         /\ has_user db (Chunk.user_id c) = true
         /\ List.length (Chunk.embedding c) = VECTOR_DIM).

Definition session_ok (s : Session) : Prop :=
  schema_ok (committed s) /\ schema_ok (working s).

(** The bearer credentials of a request, for the routes that ask for them. *)
Definition credentials_of (req : Request) : option Credentials :=
  match req with
  | Signup _ _ _ => None
  | Login _ _ => None
  | Upload credentials _ => Some credentials
  | ListContracts credentials => Some credentials
  | GetContract credentials _ => Some credentials
  | Ask credentials _ => Some credentials
  end.

(** The requests whose routes never call db.add. *)
Definition reads_only (req : Request) : bool :=
  match req with
  | Signup _ _ _ => false
  | Upload _ _ => false
  | _ => true
  end.

(** The two rows of chunks upload_contract writes for the mock parse of
    [filename], given the values drawn for them. *)
Definition mock_chunk_rows (env : Env) (doc_id user_id : UUID) (filename : string)
    : list Chunk.t :=
  [ Chunk.mk (uuid4 env 4) doc_id user_id
             "Termination clause: Either party may terminate with 90 days' notice."
             (random_embedding env 0)
             [("page", PyInt 2); ("contract_name", PyStr filename)]
             (PyInt 2) (utcnow env 1);
    Chunk.mk (uuid4 env 5) doc_id user_id
             "Liability cap: Limited to 12 months' fees."
             (random_embedding env 1)
             [("page", PyInt 5); ("contract_name", PyStr filename)]
             (PyInt 5) (utcnow env 2) ].

Definition chunk_view (chunk : Chunk.t) : ChunkView.t :=
  ChunkView.mk (Chunk.chunk_id chunk) (Chunk.text_chunk chunk)
               (Chunk.page_number chunk) (Chunk.metadata chunk).

(** * Properties *)

Arguments random_embedding : simpl never.
Arguments VECTOR_DIM : simpl never.
Arguments integer_column : simpl never.
Arguments dict_get : simpl never.

(** ** The session *)

Lemma for_each_add {A : Type} (f : A -> NewRow) (l : list A) :
  forall s,
    for_each l (fun a => db_add (f a)) s
    = (Ok tt, mkSession (committed s) (working s) (pending s ++ map f l)
                        (uuid_calls s) (now_calls s) (rand_calls s) (trips s)).
Proof.
  induction l as [|a l IH]; intros s; simpl.
  - rewrite app_nil_r. destruct s; reflexivity.
  - unfold bind, db_add, set_pending. rewrite IH. simpl.
    rewrite <- app_assoc. reflexivity.
Qed.

(** Flushing chunk objects: either an exception, with nothing committed, or
    one row per object, appended to the chunks of the transaction. *)
Lemma flush_chunk_rows (env : Env) (d : Document.t) (u : User.t)
    (l : list Parsed.chunk) :
  forall s,
    match flush_rows env (map (new_chunk d u) l) s with
    | (Raise _, s') => committed s' = committed s
    | (Ok _, s') =>
        committed s' = committed s
        /\ exists cs,
             users (working s') = users (working s)
             /\ documents (working s') = documents (working s)
             /\ chunks (working s') = chunks (working s) ++ cs
             /\ Forall2 (persisted_from env d u) l cs
    end.
Proof.
  induction l as [|a l IH]; intros s; simpl.
  - split; [reflexivity|]. exists []. rewrite app_nil_r. auto.
  - unfold bind at 1. unfold bind at 1. unfold draw_uuid.
    unfold bind at 1. unfold draw_now. unfold bind at 1.
    unfold vector_bind at 1.
    destruct (Nat.eqb _ VECTOR_DIM) eqn:Edim;
      cbn [lift_result ret raise]; [|reflexivity].
    unfold bind at 1.
    destruct (integer_column env _) as [page|e0] eqn:Epage;
      cbn [lift_result ret raise]; [|reflexivity].
    unfold bind at 1.
    unfold lift_insert, insert_chunk. simpl.
    destruct (negb (Nat.eqb _ VECTOR_DIM)); [reflexivity|].
    destruct (has_chunk _ _); [reflexivity|].
    destruct (negb (has_document _ _)); [reflexivity|].
    destruct (negb (has_user _ _)); [reflexivity|].
    simpl. unfold bind at 1.
    match goal with |- context [flush_rows env _ ?s1] => specialize (IH s1) end.
    destruct (flush_rows env (map (new_chunk d u) l) _) as [[rows|e] s'].
    + simpl. destruct IH as [Hc [cs [Hu [Hd [Hk Hf]]]]]. simpl in *.
      split; [assumption|].
      eexists (_ :: cs). repeat split; try eassumption.
      * rewrite Hk, <- app_assoc. reflexivity.
      * constructor; [|assumption]. repeat split. exact Epage.
    + simpl in *. assumption.
Qed.

(** db.commit() with only chunk objects pending. *)
Lemma commit_chunks (env : Env) (d : Document.t) (u : User.t)
    (l : list Parsed.chunk) (s : Session) :
  pending s = map (new_chunk d u) l ->
  match db_commit env s with
  | (Raise _, s') => committed s' = committed s
  | (Ok _, s') =>
      exists cs,
        users (committed s') = users (working s)
        /\ documents (committed s') = documents (working s)
        /\ chunks (committed s') = chunks (working s) ++ cs
        /\ Forall2 (persisted_from env d u) l cs
  end.
Proof.
  intros Hp. unfold db_commit. unfold bind at 1. unfold db_flush. rewrite Hp.
  destruct l as [|a l].
  - simpl. unfold bind, rollback_on_error, round_trip.
    destruct (store_up env (trips s)); simpl; [|reflexivity].
    exists []. rewrite app_nil_r. auto.
  - change (map (new_chunk d u) (a :: l))
      with (new_chunk d u a :: map (new_chunk d u) l).
    cbv iota beta.
    change (new_chunk d u a :: map (new_chunk d u) l)
      with (map (new_chunk d u) (a :: l)).
    unfold rollback_on_error at 1. unfold bind at 1. unfold round_trip at 1.
    destruct (store_up env (trips s)); [|reflexivity].
    unfold bind at 1. unfold set_pending at 1.
    match goal with |- context [flush_rows env _ ?s1] =>
      pose proof (flush_chunk_rows env d u (a :: l) s1) as H end.
    destruct (flush_rows env (map (new_chunk d u) (a :: l)) _) as [[rows|e] s'].
    + destruct H as [Hc [cs [Hu [Hd [Hk Hf]]]]]. simpl in Hc, Hu, Hd, Hk.
      unfold bind, rollback_on_error, round_trip.
      destruct (store_up env (trips s')); simpl; [|assumption].
      exists cs. auto.
    + simpl in H. simpl. assumption.
Qed.

(** ** upload_contract *)

(** What one run of upload_contract leaves behind, for any parsing service
    that stays out of the session: an exception and the database as it was,
    or a reply and exactly one new document with one chunk per parsed chunk. *)
Lemma upload_outcome (parse : Env -> list Byte.byte -> string -> M Parsed.t)
    (env : Env) (file : UploadFile.t) (u : User.t) (s : Session) :
  (forall c fn, session_free (parse env c fn)) ->
  pending s = [] ->
  working s = committed s ->
  match upload_contract_with parse env file u s with
  | (Raise _, s') => committed s' = committed s
  | (Ok reply, s') =>
      exists parsed s1 document cs,
        parse env (UploadFile.content file) (UploadFile.filename file) s
        = (Ok parsed, s1)
        /\ has_document (committed s) (Document.doc_id document) = false
        /\ Document.user_id document = User.user_id u
        /\ Document.filename document = UploadFile.filename file
        /\ users (committed s') = users (committed s)
        /\ documents (committed s') = documents (committed s) ++ [document]
        /\ chunks (committed s') = chunks (committed s) ++ cs
        /\ Forall2 (persisted_from env document u) (Parsed.chunks parsed) cs
        /\ reply = UploadReply.mk (Document.doc_id document)
                                  (UploadFile.filename file)
                                  (List.length (Parsed.chunks parsed))
  end.
Proof.
  intros Hfree Hp Hw. unfold upload_contract_with.
  destruct (negb (existsb _ ALLOWED_CONTENT_TYPES)); [reflexivity|].
  unfold bind at 1.
  destruct (Hfree (UploadFile.content file) (UploadFile.filename file) s)
    as [Hc1 [Hw1 Hp1]].
  destruct (parse env (UploadFile.content file) (UploadFile.filename file) s)
    as [[parsed|e] s1] eqn:Eparse; simpl in Hc1, Hw1, Hp1; [|assumption].
  rewrite Hp in Hp1. rewrite Hw in Hw1.
  unfold bind at 1. unfold db_add at 1. unfold set_pending at 1.
  rewrite Hp1. cbn [app].
  unfold bind at 1. unfold db_flush at 1. cbn [pending].
  unfold rollback_on_error at 1. unfold bind at 1. unfold round_trip at 1.
  cbn [trips committed working pending uuid_calls now_calls rand_calls].
  destruct (store_up env (trips s1)); [|cbn; assumption].
  unfold bind at 1. unfold set_pending at 1.
  cbn [trips committed working pending uuid_calls now_calls rand_calls].
  cbn [flush_rows insert_row].
  unfold bind at 1. unfold bind at 1. unfold draw_uuid at 1.
  unfold bind at 1. unfold draw_now at 1.
  cbn [trips committed working pending uuid_calls now_calls rand_calls].
  unfold bind at 1. unfold lift_insert at 1. unfold insert_document.
  cbn [trips committed working pending uuid_calls now_calls rand_calls
       Document.doc_id Document.user_id].
  rewrite Hw1.
  destruct (has_document (committed s) (uuid4 env (uuid_calls s1))) eqn:Hfresh;
    [cbn; assumption|].
  destruct (negb (has_user (committed s) (User.user_id u))); [cbn; assumption|].
  cbn [set_working ret bind flush_rows the_document
       trips committed working pending uuid_calls now_calls rand_calls].
  set (document := Document.mk (uuid4 env (uuid_calls s1)) (User.user_id u)
                               (UploadFile.filename file)
                               (utcnow env (now_calls s1)) None "Active" "Low").
  unfold bind at 1. rewrite for_each_add. unfold bind at 1.
  cbn [trips committed working pending uuid_calls now_calls rand_calls app].
  match goal with |- context [db_commit env ?s2] =>
    pose proof (commit_chunks env document u (Parsed.chunks parsed) s2 eq_refl) as H
  end.
  destruct (db_commit env _) as [[rows|e] s'].
  - destruct H as [cs [Hu [Hd [Hk Hf]]]]. cbn in Hu, Hd, Hk.
    exists parsed, s1, document, cs.
    rewrite Hu, Hd, Hk. repeat split; auto.
  - cbn in H. rewrite H. assumption.
Qed.

Lemma mock_llamacloud_parse_session_free (env : Env) (c : list Byte.byte)
    (fn : string) :
  session_free (mock_llamacloud_parse env c fn).
Proof. intros s. cbn. auto. Qed.

Lemma mock_llamacloud_parse_ok (env : Env) (c : list Byte.byte) (fn : string)
    (s : Session) :
  exists parsed s1, mock_llamacloud_parse env c fn s = (Ok parsed, s1).
Proof. cbn. do 2 eexists. reflexivity. Qed.

(** ** Dependencies *)

Lemma get_current_user_session (env : Env) (credentials : Credentials)
    (s : Session) :
  snd (get_current_user env credentials s) = s.
Proof.
  destruct credentials as [|[sub|]]; cbn; try reflexivity.
  unfold bind, db_query.
  destruct (id_of_text env sub) as [uid|e]; cbn [lift_result ret raise];
    [|reflexivity].
  destruct (find _ (users (working s))); reflexivity.
Qed.

Lemma authenticated_cases {A : Type} (env : Env) (credentials : Credentials)
    (f : User.t -> M A) (s : Session) :
  (exists e, authenticated env credentials f s = (Raise e, s))
  \/ (exists u, authenticated env credentials f s = f u s).
Proof.
  unfold authenticated, bind.
  pose proof (get_current_user_session env credentials s) as H.
  destruct (get_current_user env credentials s) as [[u|e] s']; simpl in H;
    subst s'.
  - right. exists u. reflexivity.
  - left. exists e. reflexivity.
Qed.

Lemma fmap_session {A B : Type} (f : A -> B) (m : M A) (s : Session) :
  snd (fmap f m s) = snd (m s).
Proof.
  unfold fmap, bind, ret. destruct (m s) as [[a|e] s']; reflexivity.
Qed.

(** ** Routes that only read *)

Lemma list_contracts_run (db : DB) (u : User.t) :
  run db (list_contracts u)
  = (Ok (map summary_of
             (filter (fun d => N.eqb (Document.user_id d) (User.user_id u))
                     (documents db))), db).
Proof. reflexivity. Qed.

Lemma get_contract_session (env : Env) (t : IdText) (u : User.t) (s : Session) :
  snd (get_contract env t u s) = s.
Proof.
  unfold get_contract, bind, db_query.
  destruct (id_of_text env t) as [cid|e]; cbn [lift_result ret raise];
    [|reflexivity].
  destruct (find _ (documents (working s))); reflexivity.
Qed.

Lemma source_of_session (ic : Z * Chunk.t) (s : Session) :
  snd (source_of ic s) = s.
Proof.
  destruct ic as [i c]. unfold source_of, chunk_document, bind, db_query.
  destruct (find _ (documents (working s))); reflexivity.
Qed.

Lemma map_m_source_of_session (l : list (Z * Chunk.t)) (s : Session) :
  snd (map_m source_of l s) = s.
Proof.
  induction l as [|ic l IH]; [reflexivity|].
  simpl. unfold bind at 1.
  pose proof (source_of_session ic s) as H.
  destruct (source_of ic s) as [[src|e] s1]; simpl in H; subst s1; [|reflexivity].
  unfold bind, ret.
  destruct (map_m source_of l s) as [[srcs|e] s1]; simpl in IH; subst s1; reflexivity.
Qed.

Lemma query_contracts_committed (env : Env) (query : string) (u : User.t)
    (s : Session) :
  committed (snd (query_contracts env query u s)) = committed s.
Proof.
  unfold query_contracts. unfold bind at 1. unfold draw_rand at 1.
  unfold bind at 1. unfold db_query at 1. unfold bind at 1.
  match goal with |- context [map_m source_of ?l ?s1] =>
    pose proof (map_m_source_of_session l s1) as H;
    destruct (map_m source_of l s1) as [[srcs|e] s2]
  end; simpl in H; subst s2; reflexivity.
Qed.

Lemma handle_db (hashpw : string -> string -> Result string)
    (checkpw : string -> string -> Result bool) (env : Env) (db : DB) (req : Request) :
  snd (handle hashpw checkpw env db req)
  = committed (snd (route hashpw checkpw env req (begin db))).
Proof.
  unfold handle, serve, run.
  destruct (route hashpw checkpw env req (begin db)); reflexivity.
Qed.

(** ** signup and login *)

Lemma signup_outcome (hashpw : string -> string -> Result string) (env : Env)
    (username email password : string) (s : Session) :
  pending s = [] ->
  match signup hashpw env username email password s with
  | (Raise _, s') => committed s' = committed s
  | (Ok _, s') =>
      documents (committed s') = documents (working s)
      /\ chunks (committed s') = chunks (working s)
      /\ exists u, users (committed s') = users (working s) ++ [u]
                   /\ User.email u = email
                   /\ has_email (working s) email = false
  end.
Proof.
  intros Hp. unfold signup. unfold bind at 1. unfold db_query at 1.
  destruct (find _ (users (working s))); [reflexivity|].
  unfold bind at 1.
  destruct (hashpw password (gensalt env)) as [h|e0];
    cbn [lift_result ret raise]; [|reflexivity].
  unfold bind at 1. unfold db_add at 1, set_pending at 1. rewrite Hp.
  cbn [app]. unfold bind at 1. unfold db_commit. unfold bind at 1.
  unfold db_flush at 1. cbn [pending].
  unfold rollback_on_error at 1. unfold bind at 1. unfold round_trip at 1.
  cbn [trips committed working pending uuid_calls now_calls rand_calls].
  destruct (store_up env (trips s)); [|reflexivity].
  cbn [flush_rows insert_row].
  unfold bind, set_pending, draw_uuid, draw_now, lift_insert, insert_user,
    rollback_on_error, round_trip, set_working, ret, the_user, auth_reply.
  cbn [trips committed working pending uuid_calls now_calls rand_calls
       User.user_id User.email].
  destruct (has_user (working s) _); [reflexivity|].
  destruct (has_email (working s) email) eqn:He; [reflexivity|].
  cbn [trips committed working pending uuid_calls now_calls rand_calls].
  destruct (store_up env (S (trips s))); [|reflexivity].
  cbn. repeat split. eexists. repeat split.
Qed.

Lemma login_committed (checkpw : string -> string -> Result bool) (env : Env)
    (email password : string) (s : Session) :
  committed (snd (login checkpw env email password s)) = committed s.
Proof.
  unfold login, bind, db_query.
  destruct (find _ (users (working s))) as [u|]; [|reflexivity].
  destruct (checkpw password (User.password_hash u)) as [b|e];
    cbn [lift_result ret raise]; [|reflexivity].
  destruct (negb b); reflexivity.
Qed.

(** ** What a request can do to the database *)

Lemma handle_effect (hashpw : string -> string -> Result string)
    (checkpw : string -> string -> Result bool) (env : Env) (db : DB) (req : Request) :
  let db' := snd (handle hashpw checkpw env db req) in
  db' = db
  \/ (documents db' = documents db /\ chunks db' = chunks db
      /\ exists u, users db' = users db ++ [u]
                   /\ has_email db (User.email u) = false)
  \/ (exists document cs,
        has_document db (Document.doc_id document) = false
        /\ users db' = users db
        /\ documents db' = documents db ++ [document]
        /\ chunks db' = chunks db ++ cs
        /\ Forall (fun c => Chunk.doc_id c = Document.doc_id document
                            /\ Chunk.user_id c = Document.user_id document) cs).
Proof.
  cbv zeta. rewrite handle_db.
  destruct req as [un em pw|em pw|cred file|cred|cred cid|cred q];
    cbn [route]; rewrite fmap_session.
  - pose proof (signup_outcome hashpw env un em pw (begin db) eq_refl) as H.
    destruct (signup hashpw env un em pw (begin db)) as [[r|e] s']; cbn in *.
    + right; left. destruct H as [Hd [Hk [u [Hu [He Hf]]]]].
      split; [assumption|]. split; [assumption|].
      exists u. rewrite He. split; assumption.
    + left. assumption.
  - left. apply login_committed.
  - destruct (authenticated_cases env cred (upload_contract env file) (begin db))
      as [[e H]|[u H]]; rewrite H; [left; reflexivity|].
    pose proof (upload_outcome mock_llamacloud_parse env file u (begin db)
                  (mock_llamacloud_parse_session_free env) eq_refl eq_refl) as Ho.
    unfold upload_contract.
    destruct (upload_contract_with mock_llamacloud_parse env file u (begin db))
      as [[r|e] s']; cbn [snd committed begin] in *; [|left; assumption].
    right; right.
    destruct Ho as [parsed [s1 [document [cs [_ [Hf [Hu [_ [Hus [Hd [Hk [Hall _]]]]]]]]]]]].
    exists document, cs. repeat split; try assumption.
    clear - Hall Hu. induction Hall as [|a c l cs' Hac _ IH]; constructor; auto.
    destruct Hac as [H1 [H2 _]]. rewrite Hu. auto.
  - destruct (authenticated_cases env cred list_contracts (begin db))
      as [[e H]|[u H]]; rewrite H; left; reflexivity.
  - destruct (authenticated_cases env cred (get_contract env cid) (begin db))
      as [[e H]|[u H]]; rewrite H; [left; reflexivity|].
    left. rewrite get_contract_session. reflexivity.
  - destruct (authenticated_cases env cred (query_contracts env q) (begin db))
      as [[e H]|[u H]]; rewrite H; [left; reflexivity|].
    left. apply query_contracts_committed.
Qed.

(** ** Invariants of the reachable databases *)

Lemma has_document_false (db : DB) (did : UUID) :
  has_document db did = false ->
  ~ In did (map Document.doc_id (documents db)).
Proof.
  unfold has_document. intros H Hin.
  apply in_map_iff in Hin. destruct Hin as [d [Hd Hin]].
  assert (existsb (fun d => N.eqb (Document.doc_id d) did) (documents db) = true)
    as Ht.
  { apply existsb_exists. exists d. split; [assumption|]. apply N.eqb_eq, Hd. }
  congruence.
Qed.

Lemma NoDup_snoc {A : Type} (l : list A) (a : A) :
  NoDup l -> ~ In a l -> NoDup (l ++ [a]).
Proof.
  induction l as [|b l IH]; intros Hnd Hnin; simpl.
  - constructor; [intros []|constructor].
  - inversion Hnd as [|? ? Hb Hl]; subst. constructor.
    + intros Hin. apply in_app_or in Hin. destruct Hin as [Hin|[Heq|[]]].
      * contradiction.
      * subst. apply Hnin. left. reflexivity.
    + apply IH; [assumption|]. intros Hin. apply Hnin. right. assumption.
Qed.

Lemma NoDup_map_inj {A B : Type} (f : A -> B) (l : list A) (a b : A) :
  NoDup (map f l) -> In a l -> In b l -> f a = f b -> a = b.
Proof.
  induction l as [|x l IH]; simpl; intros Hnd Ha Hb Hf; [contradiction|].
  inversion Hnd as [|? ? Hx Hl]; subst.
  destruct Ha as [Ha|Ha], Hb as [Hb|Hb]; subst.
  - reflexivity.
  - exfalso. apply Hx. rewrite Hf. apply in_map. assumption.
  - exfalso. apply Hx. rewrite <- Hf. apply in_map. assumption.
  - apply IH; assumption.
Qed.

Lemma has_email_false (db : DB) (e : string) :
  has_email db e = false -> ~ In e (map User.email (users db)).
Proof.
  unfold has_email. intros H Hin.
  apply in_map_iff in Hin. destruct Hin as [u [Hu Hin]].
  assert (existsb (fun u => String.eqb (User.email u) e) (users db) = true) as Ht.
  { apply existsb_exists. exists u. split; [assumption|].
    apply String.eqb_eq, Hu. }
  congruence.
Qed.

Lemma invariant_step (hashpw : string -> string -> Result string)
    (checkpw : string -> string -> Result bool) (env : Env) (db : DB) (req : Request) :
  invariant db -> invariant (snd (handle hashpw checkpw env db req)).
Proof.
  intros [Hpk [Hown Hem]].
  destruct (handle_effect hashpw checkpw env db req)
    as [H|[[Hd [Hk [u [Hu Hf]]]]|[document [cs [Hfresh [Hu [Hd [Hk Hcs]]]]]]]].
  - rewrite H. repeat split; assumption.
  - unfold invariant, documents_pk, chunk_owner_is_document_owner,
      users_email_unique.
    rewrite Hd, Hk, Hu. repeat split; try assumption.
    rewrite map_app. apply NoDup_snoc; [assumption|].
    apply has_email_false. assumption.
  - unfold invariant, documents_pk, chunk_owner_is_document_owner,
      users_email_unique.
    rewrite Hd, Hk, Hu. split; [|split; [|assumption]].
    + rewrite map_app. apply NoDup_snoc; [assumption|].
      apply has_document_false. assumption.
    + intros c Hin. apply in_app_or in Hin. destruct Hin as [Hin|Hin].
      * destruct (Hown c Hin) as [d [Hdin [H1 H2]]].
        exists d. split; [apply in_or_app; left; assumption|]. split; assumption.
      * rewrite Forall_forall in Hcs. destruct (Hcs c Hin) as [H1 H2].
        exists document. split; [apply in_or_app; right; left; reflexivity|].
        split; congruence.
Qed.

Lemma reachable_invariant (hashpw : string -> string -> Result string)
    (checkpw : string -> string -> Result bool) (db : DB) :
  reachable hashpw checkpw db -> invariant db.
Proof.
  induction 1 as [|db env req Hr IH].
  - repeat split; try constructor. intros c [].
  - apply invariant_step. assumption.
Qed.

(** C6.  In every database the application can reach, each chunk has exactly
    one document, and the owner recorded in the chunk is the owner of that
    document: upload_contract, the only route that writes chunks, establishes
    it when it writes, and no route can break it. *)
Theorem chunk_user_is_document_user (hashpw : string -> string -> Result string)
    (checkpw : string -> string -> Result bool) (db : DB) :
  reachable hashpw checkpw db ->
  forall c, In c (chunks db) ->
    exists d, In d (documents db)
              /\ Document.doc_id d = Chunk.doc_id c
              /\ Document.user_id d = Chunk.user_id c
              /\ forall d', In d' (documents db) ->
                            Document.doc_id d' = Chunk.doc_id c -> d' = d.
Proof.
  intros Hr c Hin.
  destruct (reachable_invariant hashpw checkpw db Hr) as [Hpk [Hown _]].
  destruct (Hown c Hin) as [d [Hd [H1 H2]]].
  exists d. repeat split; try assumption.
  intros d' Hd' H'. apply (NoDup_map_inj Document.doc_id (documents db));
    try assumption. congruence.
Qed.

(** ** query_contracts *)

Lemma In_firstn {A : Type} (n : nat) (l : list A) (a : A) :
  In a (firstn n l) -> In a l.
Proof.
  revert l. induction n as [|n IH]; intros [|b l]; simpl; try contradiction.
  intros [H|H]; [left; assumption|right; apply IH; assumption].
Qed.

Lemma In_enumerate {A : Type} (l : list A) (ic : Z * A) :
  In ic (enumerate l) -> In (snd ic) l.
Proof.
  destruct ic as [i c]. unfold enumerate. intros H.
  apply in_combine_r in H. assumption.
Qed.

Lemma candidate_chunks_owned (db : DB) (u : User.t) (c : Chunk.t) :
  In c (firstn 3 (candidate_chunks db u)) ->
  In c (chunks db) /\ Chunk.user_id c = User.user_id u.
Proof.
  intros H. apply In_firstn in H. unfold candidate_chunks in H.
  apply In_firstn in H. apply filter_In in H. destruct H as [H1 H2].
  split; [assumption|]. apply N.eqb_eq. assumption.
Qed.

Lemma candidate_chunks_first_three (db : DB) (u : User.t) :
  firstn 3 (candidate_chunks db u) = firstn 3 (filter (owned_by u) (chunks db)).
Proof. unfold candidate_chunks. rewrite firstn_firstn. reflexivity. Qed.

Lemma source_of_eq (i : Z) (c : Chunk.t) (s : Session) :
  source_of (i, c) s
  = match find (fun d => N.eqb (Document.doc_id d) (Chunk.doc_id c))
               (documents (working s)) with
    | Some d => (Ok (Source.mk (Document.filename d) (Chunk.text_chunk c)
                               (Chunk.page_number c) (85 + i * 3)%Z), s)
    | None => (Raise (AttributeError "filename"), s)
    end.
Proof.
  unfold source_of, chunk_document, bind, db_query.
  destruct (find _ (documents (working s))); reflexivity.
Qed.

(** Building the sources: either every chunk has its document and the
    sources follow the chunks one by one, or some chunk has none. *)
Lemma map_m_source_of_spec (l : list (Z * Chunk.t)) (s : Session) :
  match map_m source_of l s with
  | (Ok srcs, _) => Forall2 (source_from (working s)) l srcs
  | (Raise _, _) =>
      exists ic, In ic l
                 /\ forall d, In d (documents (working s)) ->
                              Document.doc_id d <> Chunk.doc_id (snd ic)
  end.
Proof.
  induction l as [|[i c] l IH]; [cbn; constructor|].
  cbn [map_m]. unfold bind at 1. rewrite source_of_eq.
  destruct (find (fun d => N.eqb (Document.doc_id d) (Chunk.doc_id c))
                 (documents (working s))) as [d|] eqn:Hfind.
  - apply find_some in Hfind. destruct Hfind as [Hin Heq].
    apply N.eqb_eq in Heq. unfold bind at 1.
    destruct (map_m source_of l s) as [[srcs|e] s1].
    + unfold ret. constructor; [|assumption].
      exists d. repeat split; assumption.
    + destruct IH as [ic [Hic Hno]]. exists ic.
      split; [right; assumption|assumption].
  - exists (i, c). split; [left; reflexivity|].
    intros d Hin Heq.
    pose proof (find_none _ _ Hfind d Hin) as Hn. cbv beta in Hn.
    apply N.eqb_neq in Hn. contradiction.
Qed.

Lemma query_contracts_run (env : Env) (db : DB) (query : string) (u : User.t) :
  run db (query_contracts env query u)
  = match map_m source_of (enumerate (firstn 3 (candidate_chunks db u)))
                (mkSession db db [] 0 0 1 0) with
    | (Ok srcs, _) => (Ok (AskReply.mk (answer_text query) 94 srcs), db)
    | (Raise e, _) => (Raise e, db)
    end.
Proof.
  unfold run, query_contracts, begin.
  unfold bind at 1. unfold draw_rand at 1.
  cbn [committed working pending uuid_calls now_calls rand_calls trips].
  unfold bind at 1. unfold db_query at 1. cbn [working]. unfold bind at 1.
  match goal with |- context [map_m source_of ?l ?s1] =>
    pose proof (map_m_source_of_session l s1) as H;
    destruct (map_m source_of l s1) as [[srcs|e] s2]
  end; simpl in H; subst s2; reflexivity.
Qed.

(** On a reachable database the route answers, and its sources are built,
    one by one, from the first three chunks of the requesting user. *)
Lemma query_contracts_reachable (hashpw : string -> string -> Result string)
    (checkpw : string -> string -> Result bool) (db : DB) :
  reachable hashpw checkpw db ->
  forall env query u,
    exists srcs,
      run db (query_contracts env query u)
      = (Ok (AskReply.mk (answer_text query) 94 srcs), db)
      /\ Forall2 (source_from db)
                 (enumerate (firstn 3 (candidate_chunks db u))) srcs.
Proof.
  intros Hr env query u. rewrite query_contracts_run.
  pose proof (map_m_source_of_spec
                (enumerate (firstn 3 (candidate_chunks db u)))
                (mkSession db db [] 0 0 1 0)) as H.
  destruct (map_m source_of _ _) as [[srcs|e] s1]; cbn [working] in H.
  - exists srcs. split; [reflexivity|assumption].
  - exfalso. destruct H as [ic [Hin Hno]].
    apply In_enumerate in Hin. apply candidate_chunks_owned in Hin.
    destruct Hin as [Hin _].
    destruct (reachable_invariant hashpw checkpw db Hr) as [_ [Hown _]].
    destruct (Hown _ Hin) as [d [Hd [H1 _]]]. apply (Hno d Hd H1).
Qed.

(** C1.  On every reachable database, for every query of every user, each
    source of the answer is built from a chunk of the database whose owner
    is the requesting user, and the document of that chunk belongs to no
    other user. *)
Theorem ask_sources_are_own (hashpw : string -> string -> Result string)
    (checkpw : string -> string -> Result bool) (db : DB) :
  reachable hashpw checkpw db ->
  forall env query u,
    exists reply cs,
      run db (query_contracts env query u) = (Ok reply, db)
      /\ Forall2 (source_from db) cs (AskReply.sources reply)
      /\ Forall (fun ic =>
                   In (snd ic) (chunks db)
                   /\ Chunk.user_id (snd ic) = User.user_id u
                   /\ forall d v, In d (documents db) ->
                                  Document.doc_id d = Chunk.doc_id (snd ic) ->
                                  User.user_id v <> User.user_id u ->
                                  Document.user_id d <> User.user_id v) cs.
Proof.
  intros Hr env query u.
  destruct (query_contracts_reachable hashpw checkpw db Hr env query u)
    as [srcs [Hrun Hsrc]].
  eexists. exists (enumerate (firstn 3 (candidate_chunks db u))).
  split; [exact Hrun|]. split; [exact Hsrc|].
  apply Forall_forall. intros ic Hin.
  apply In_enumerate in Hin. apply candidate_chunks_owned in Hin.
  destruct Hin as [Hin Hu]. repeat split; try assumption.
  intros d v Hd Hid Hv Hdv.
  destruct (reachable_invariant hashpw checkpw db Hr) as [Hpk [Hown _]].
  destruct (Hown _ Hin) as [d0 [Hd0 [Hid0 Hu0]]].
  assert (d = d0) as ->.
  { apply (NoDup_map_inj Document.doc_id (documents db)); try assumption.
    congruence. }
  congruence.
Qed.

(** ** Ingestion *)

(** C2.  An upload either raises and leaves the database exactly as it was
    (so list_contracts and get_contract answer as before), whichever step
    failed -- the content-type check, the parsing service, the flush of the
    document, the flush of a chunk, the COMMIT -- or it replies and the
    database has gained exactly the new document and one chunk for every
    parsed chunk, and nothing else. *)
Theorem upload_all_or_nothing
    (parse : Env -> list Byte.byte -> string -> M Parsed.t)
    (env : Env) (db : DB) (file : UploadFile.t) (u : User.t) :
  (forall c fn, session_free (parse env c fn)) ->
  match run db (upload_contract_with parse env file u) with
  | (Raise _, db') =>
      db' = db
      /\ (forall v, run db' (list_contracts v) = run db (list_contracts v))
      /\ (forall env' v cid,
            run db' (get_contract env' cid v) = run db (get_contract env' cid v))
  | (Ok reply, db') =>
      exists parsed s1 document cs,
        parse env (UploadFile.content file) (UploadFile.filename file) (begin db)
        = (Ok parsed, s1)
        /\ UploadReply.document_id reply = Document.doc_id document
        /\ UploadReply.chunks_processed reply = List.length cs
        /\ users db' = users db
        /\ documents db' = documents db ++ [document]
        /\ chunks db' = chunks db ++ cs
        /\ Forall2 (persisted_from env document u) (Parsed.chunks parsed) cs
  end.
Proof.
  intros Hfree. unfold run.
  pose proof (upload_outcome parse env file u (begin db) Hfree eq_refl eq_refl)
    as H.
  destruct (upload_contract_with parse env file u (begin db)) as [[reply|e] s'].
  - destruct H as [parsed [s1 [document [cs [Hp [_ [_ [_ [Hu [Hd [Hk [Hf Hr]]]]]]]]]]]].
    exists parsed, s1, document, cs. subst reply. cbn in *.
    repeat split; try assumption.
    apply Forall2_length in Hf. assumption.
  - cbn in H. rewrite H. repeat split.
Qed.

Lemma upload_all_or_nothing_witness :
  match run Demo.db2
            (upload_contract_with mock_llamacloud_parse
               (Demo.env_down_at 1 300%N 3000%Z) Demo.lease Demo.alice) with
  | (Raise _, db') =>
      db' = Demo.db2
      /\ (forall v, run db' (list_contracts v) = run Demo.db2 (list_contracts v))
      /\ (forall env' v cid,
            run db' (get_contract env' cid v)
            = run Demo.db2 (get_contract env' cid v))
  | (Ok reply, db') =>
      exists parsed s1 document cs,
        mock_llamacloud_parse (Demo.env_down_at 1 300%N 3000%Z)
          (UploadFile.content Demo.lease) (UploadFile.filename Demo.lease)
          (begin Demo.db2)
        = (Ok parsed, s1)
        /\ UploadReply.document_id reply = Document.doc_id document
        /\ UploadReply.chunks_processed reply = List.length cs
        /\ users db' = users Demo.db2
        /\ documents db' = documents Demo.db2 ++ [document]
        /\ chunks db' = chunks Demo.db2 ++ cs
        /\ Forall2 (persisted_from (Demo.env_down_at 1 300%N 3000%Z) document
                                   Demo.alice)
                   (Parsed.chunks parsed) cs
  end.
Proof.
  apply (upload_all_or_nothing mock_llamacloud_parse).
  apply mock_llamacloud_parse_session_free.
Defined.

(** The store going down between the flush of the document and the flush
    of the chunks: the request fails and the document is not there. *)
Example upload_store_down_after_document :
  run Demo.db2
      (upload_contract_with mock_llamacloud_parse
         (Demo.env_down_at 1 300%N 3000%Z) Demo.lease Demo.alice)
  = (Raise OperationalError, Demo.db2).
Proof. vm_compute. reflexivity. Qed.

Example upload_parse_fails :
  run Demo.db2
      (upload_contract_with Demo.parse_fails
         (Demo.env_at 300%N 3000%Z) Demo.lease Demo.alice)
  = (Raise (DependencyError "parse"), Demo.db2).
Proof. vm_compute. reflexivity. Qed.

Lemma integer_column_stores (env : Env) (v stored : pyval) :
  integer_column env v = Ok stored ->
  match v with
  | PyNone => stored = PyNone
  | PyInt z => stored = PyInt z /\ (INT4_MIN <= z <= INT4_MAX)%Z
  | PyStr s =>
      exists z, int4in env s = Some z /\ stored = PyInt z
                /\ (INT4_MIN <= z <= INT4_MAX)%Z
  end.
Proof.
  assert (Hfit : forall z, fits_int4 z = true -> (INT4_MIN <= z <= INT4_MAX)%Z).
  { intros z H. unfold fits_int4 in H. apply andb_prop in H.
    destruct H as [H1 H2]. apply Z.leb_le in H1. apply Z.leb_le in H2. lia. }
  unfold integer_column. destruct v as [|z|t].
  - intros H. injection H as <-. reflexivity.
  - destruct (fits_int4 z) eqn:E; [|discriminate].
    intros H. injection H as <-. split; [reflexivity|apply Hfit, E].
  - destruct (int4in env t) as [z|]; [|discriminate].
    destruct (fits_int4 z) eqn:E; [|discriminate].
    intros H. injection H as <-. exists z. repeat split; apply Hfit, E.
Qed.

(** C10, as the code has it.  In a successful upload every parsed chunk
    has its row, with the parsed metadata; the page number of the row is 1
    when the metadata has no "page" key; with the key, it is the value when
    that is None or an integer of 32 bits, and the integer the database
    reads when the value is a text.  (With any other value the upload has
    failed.) *)
Theorem page_number_defaults_to_one
    (parse : Env -> list Byte.byte -> string -> M Parsed.t)
    (env : Env) (db db' : DB) (file : UploadFile.t) (u : User.t)
    (reply : UploadReply.t) :
  (forall c fn, session_free (parse env c fn)) ->
  run db (upload_contract_with parse env file u) = (Ok reply, db') ->
  exists parsed s1 cs,
    parse env (UploadFile.content file) (UploadFile.filename file) (begin db)
    = (Ok parsed, s1)
    /\ chunks db' = chunks db ++ cs
    /\ Forall2 (fun chunk_data c =>
                  Chunk.metadata c = Parsed.metadata chunk_data
                  /\ page_stored env
                        (dict_lookup "page" (Parsed.metadata chunk_data))
                        (Chunk.page_number c))
               (Parsed.chunks parsed) cs.
Proof.
  intros Hfree Hrun. unfold run in Hrun.
  pose proof (upload_outcome parse env file u (begin db) Hfree eq_refl eq_refl)
    as H.
  destruct (upload_contract_with parse env file u (begin db)) as [[r|e] s'];
    [|discriminate].
  injection Hrun as Hr Hdb. subst r db'.
  destruct H as [parsed [s1 [document [cs [Hp [_ [_ [_ [_ [_ [Hk [Hf _]]]]]]]]]]]].
  exists parsed, s1, cs. split; [exact Hp|]. split; [exact Hk|].
  clear - Hf. induction Hf as [|a c l cs' Hac _ IH]; constructor; [|exact IH].
  destruct Hac as [_ [_ [_ [_ [Hm Hpg]]]]]. unfold dict_get in Hpg.
  split; [exact Hm|]. unfold page_stored.
  destruct (dict_lookup "page" (Parsed.metadata a)) as [v|].
  - apply integer_column_stores in Hpg. exact Hpg.
  - apply integer_column_stores in Hpg. destruct Hpg as [Hpg _]. exact Hpg.
Qed.

Lemma parse_no_page_session_free (env : Env) (c : list Byte.byte) (fn : string) :
  session_free (Demo.parse_no_page env c fn).
Proof. intros s. cbn. auto. Qed.

Lemma page_number_defaults_to_one_witness :
  exists reply db',
    run Demo.db2
        (upload_contract_with Demo.parse_no_page (Demo.env_at 300%N 3000%Z)
                              Demo.lease Demo.alice)
    = (Ok reply, db')
    /\ map Chunk.page_number (chunks db') = [PyInt 7; PyInt 1]
    /\ exists parsed s1 cs,
         Demo.parse_no_page (Demo.env_at 300%N 3000%Z)
           (UploadFile.content Demo.lease) (UploadFile.filename Demo.lease)
           (begin Demo.db2)
         = (Ok parsed, s1)
         /\ chunks db' = chunks Demo.db2 ++ cs
         /\ Forall2 (fun chunk_data c =>
                       Chunk.metadata c = Parsed.metadata chunk_data
                       /\ page_stored (Demo.env_at 300%N 3000%Z)
                             (dict_lookup "page" (Parsed.metadata chunk_data))
                             (Chunk.page_number c))
                    (Parsed.chunks parsed) cs.
Proof.
  destruct (run Demo.db2
              (upload_contract_with Demo.parse_no_page (Demo.env_at 300%N 3000%Z)
                                    Demo.lease Demo.alice))
    as [r db'] eqn:E.
  assert (Hr : fst (run Demo.db2
                      (upload_contract_with Demo.parse_no_page
                         (Demo.env_at 300%N 3000%Z) Demo.lease Demo.alice))
               = Ok (UploadReply.mk 300%N "lease.pdf" 2))
    by (vm_compute; reflexivity).
  assert (Hp : map Chunk.page_number
                 (chunks (snd (run Demo.db2
                      (upload_contract_with Demo.parse_no_page
                         (Demo.env_at 300%N 3000%Z) Demo.lease Demo.alice))))
               = [PyInt 7; PyInt 1])
    by (vm_compute; reflexivity).
  rewrite E in Hr, Hp. cbn [fst snd] in Hr, Hp. subst r.
  exists (UploadReply.mk 300%N "lease.pdf" 2), db'.
  split; [reflexivity|]. split; [exact Hp|].
  pose proof (page_number_defaults_to_one Demo.parse_no_page
                (Demo.env_at 300%N 3000%Z) Demo.db2 db' Demo.lease Demo.alice
                (UploadReply.mk 300%N "lease.pdf" 2)
                (parse_no_page_session_free (Demo.env_at 300%N 3000%Z)) E) as H.
  exact H.
Defined.

(** C10, as stated, fails: the parser gives the page "7", a text; the
    upload succeeds and the row keeps the metadata, but its page number is
    the integer 7, not the value under "page". *)
Lemma page_number_text_is_read_as_integer :
  exists reply db',
    run Demo.db2
        (upload_contract_with Demo.parse_text_page (Demo.env_at 300%N 3000%Z)
                              Demo.lease Demo.alice)
    = (Ok reply, db')
    /\ map (fun c => (dict_lookup "page" (Chunk.metadata c), Chunk.page_number c))
           (chunks db')
       = [(Some (PyStr "7"), PyInt 7)]
    /\ PyInt 7 <> PyStr "7".
Proof.
  destruct (run Demo.db2
              (upload_contract_with Demo.parse_text_page
                 (Demo.env_at 300%N 3000%Z) Demo.lease Demo.alice))
    as [r db'] eqn:E.
  assert (Hr : fst (run Demo.db2
                      (upload_contract_with Demo.parse_text_page
                         (Demo.env_at 300%N 3000%Z) Demo.lease Demo.alice))
               = Ok (UploadReply.mk 300%N "lease.pdf" 1))
    by (vm_compute; reflexivity).
  assert (Hp : map (fun c => (dict_lookup "page" (Chunk.metadata c),
                              Chunk.page_number c))
                 (chunks (snd (run Demo.db2
                      (upload_contract_with Demo.parse_text_page
                         (Demo.env_at 300%N 3000%Z) Demo.lease Demo.alice))))
               = [(Some (PyStr "7"), PyInt 7)])
    by (vm_compute; reflexivity).
  rewrite E in Hr, Hp. cbn [fst snd] in Hr, Hp. subst r.
  exists (UploadReply.mk 300%N "lease.pdf" 1), db'.
  split; [reflexivity|]. split; [exact Hp|]. discriminate.
Qed.

(** A page that does not fit the Integer column: the upload fails, and
    nothing of it is kept. *)
Example upload_page_out_of_range :
  run Demo.db2
      (upload_contract_with Demo.parse_big_page (Demo.env_at 300%N 3000%Z)
                            Demo.lease Demo.alice)
  = (Raise (DataError "integer out of range"), Demo.db2).
Proof. vm_compute. reflexivity. Qed.

(** ** get_contract *)

Lemma get_contract_404 (env : Env) (db : DB) (u : User.t) (t : IdText)
    (cid : UUID) :
  id_of_text env t = Ok cid ->
  (forall d, In d (documents db) -> Document.doc_id d = cid ->
             Document.user_id d <> User.user_id u) ->
  serve db (get_contract env t u) = (ReplyError 404 "Contract not found", db).
Proof.
  intros Ht H. unfold serve, run, get_contract, bind, db_query.
  cbn [begin working]. rewrite Ht. cbn [lift_result ret].
  destruct (find _ (documents db)) as [d|] eqn:Hfind; [|reflexivity].
  exfalso. apply find_some in Hfind. destruct Hfind as [Hin Heq].
  apply andb_prop in Heq. destruct Heq as [H1 H2].
  apply N.eqb_eq in H1. apply N.eqb_eq in H2.
  exact (H d Hin H1 H2).
Qed.

(** A contract_id the database does not read as a uuid: the query fails,
    and the reply is 500 whatever the database holds. *)
Lemma get_contract_not_uuid (env : Env) (db : DB) (u : User.t) (t : string) :
  uuid_in env t = None ->
  serve db (get_contract env (Text t) u)
  = (ReplyError 500 "Internal Server Error", db).
Proof.
  intros Ht. unfold serve, run, get_contract, bind, db_query, id_of_text.
  cbn [begin working]. rewrite Ht. reflexivity.
Qed.

(** For a contract_id that the database reads as a uuid, get_contract
    answers 404 "Contract not found" when no document has the identifier
    (db1) and when the document with that identifier belongs to another
    user (db2); the two replies are the same reply, and neither request
    changes the database. *)
Theorem get_contract_not_found_indistinguishable
    (env : Env) (db1 db2 : DB) (u : User.t) (t : IdText) (cid : UUID)
    (d : Document.t) :
  id_of_text env t = Ok cid ->
  (forall d', In d' (documents db1) -> Document.doc_id d' <> cid) ->
  documents_pk db2 ->
  In d (documents db2) ->
  Document.doc_id d = cid ->
  Document.user_id d <> User.user_id u ->
  serve db1 (get_contract env t u) = (ReplyError 404 "Contract not found", db1)
  /\ serve db2 (get_contract env t u)
     = (ReplyError 404 "Contract not found", db2)
  /\ fst (serve db1 (get_contract env t u))
     = fst (serve db2 (get_contract env t u)).
Proof.
  intros Ht Habsent Hpk Hin Hid Hother.
  assert (H1 : serve db1 (get_contract env t u)
               = (ReplyError 404 "Contract not found", db1)).
  { apply (get_contract_404 env db1 u t cid Ht).
    intros d' Hd' Heq. exfalso. exact (Habsent d' Hd' Heq). }
  assert (H2 : serve db2 (get_contract env t u)
               = (ReplyError 404 "Contract not found", db2)).
  { apply (get_contract_404 env db2 u t cid Ht). intros d' Hd' Heq.
    assert (d' = d) as ->; [|assumption].
    apply (NoDup_map_inj Document.doc_id (documents db2)); try assumption.
    congruence. }
  rewrite H1, H2. repeat split.
Qed.

Lemma get_contract_not_found_indistinguishable_witness :
  serve Demo.db2
        (get_contract (Demo.env_at 600%N 6000%Z)
                      (Text "00000000-0000-0000-0000-00000000012f") Demo.bob)
  = (ReplyError 404 "Contract not found", Demo.db2)
  /\ serve Demo.db3
           (get_contract (Demo.env_at 600%N 6000%Z)
                         (Text "00000000-0000-0000-0000-00000000012f") Demo.bob)
     = (ReplyError 404 "Contract not found", Demo.db3)
  /\ fst (serve Demo.db2
                (get_contract (Demo.env_at 600%N 6000%Z)
                              (Text "00000000-0000-0000-0000-00000000012f")
                              Demo.bob))
     = fst (serve Demo.db3
                  (get_contract (Demo.env_at 600%N 6000%Z)
                                (Text "00000000-0000-0000-0000-00000000012f")
                                Demo.bob)).
Proof.
  pose proof (get_contract_not_found_indistinguishable
                (Demo.env_at 600%N 6000%Z) Demo.db2 Demo.db3 Demo.bob
                (Text "00000000-0000-0000-0000-00000000012f") 303%N
                (Document.mk 303%N 100%N "lease.pdf" 3000%Z None "Active" "Low"))
    as H.
  apply H.
  - vm_compute. reflexivity.
  - intros d' Hd'. vm_compute in Hd'. contradiction.
  - unfold documents_pk.
    assert (E : map Document.doc_id (documents Demo.db3) = [303%N])
      by (vm_compute; reflexivity).
    rewrite E. constructor; [intros []|constructor].
  - assert (E : documents Demo.db3
                = [Document.mk 303%N 100%N "lease.pdf" 3000%Z None "Active" "Low"])
      by (vm_compute; reflexivity).
    rewrite E. left. reflexivity.
  - reflexivity.
  - discriminate.
Defined.

(** C3.  get_contract does not answer 404 for every identifier that no
    document has: alice asks for the contract "abc", which is not the text
    of a uuid; no document has that identifier, and the reply is 500, not
    404.  For the text of a uuid that no document has, and for the
    identifier of a document of another user, the reply is 404. *)
Theorem get_contract_malformed_id :
  handle Demo.hashpw Demo.checkpw (Demo.env_at 600%N 6000%Z) Demo.db3
         (GetContract (Payload (Some (UuidText 100%N))) (Text "abc"))
  = (ReplyError 500 "Internal Server Error", Demo.db3)
  /\ handle Demo.hashpw Demo.checkpw (Demo.env_at 600%N 6000%Z) Demo.db3
            (GetContract (Payload (Some (UuidText 100%N)))
                         (Text "00000000-0000-0000-0000-0000000003e7"))
     = (ReplyError 404 "Contract not found", Demo.db3)
  /\ handle Demo.hashpw Demo.checkpw (Demo.env_at 600%N 6000%Z) Demo.db3
            (GetContract (Payload (Some (UuidText 200%N)))
                         (Text "00000000-0000-0000-0000-00000000012f"))
     = (ReplyError 404 "Contract not found", Demo.db3).
Proof. repeat split; vm_compute; reflexivity. Qed.

(** ** signup *)

(** C4.  A signup with the email of a registered user is answered
    400 "Email already registered", and the database after the request is
    the database before it: no user is added. *)
Theorem signup_duplicate_email (hashpw : string -> string -> Result string)
    (checkpw : string -> string -> Result bool) (env : Env) (db : DB)
    (username email password : string) (u : User.t) :
  In u (users db) ->
  User.email u = email ->
  handle hashpw checkpw env db (Signup username email password)
  = (ReplyError 400 "Email already registered", db).
Proof.
  intros Hin Hem.
  unfold handle, serve, run, route, fmap, signup.
  unfold bind at 1. unfold bind at 1. unfold db_query at 1. cbn [begin working].
  destruct (find (fun u0 => String.eqb (User.email u0) email) (users db))
    as [u'|] eqn:Hfind; [reflexivity|].
  exfalso. pose proof (find_none _ _ Hfind u Hin) as Hn. cbv beta in Hn.
  rewrite Hem, String.eqb_refl in Hn. discriminate.
Qed.

Lemma signup_duplicate_email_witness :
  handle Demo.hashpw Demo.checkpw (Demo.env_at 600%N 6000%Z) Demo.db3
         (Signup "bob" "a@x.com" "pw2")
  = (ReplyError 400 "Email already registered", Demo.db3).
Proof.
  apply (signup_duplicate_email Demo.hashpw Demo.checkpw (Demo.env_at 600%N 6000%Z)
           Demo.db3 "bob" "a@x.com" "pw2" Demo.alice).
  - assert (E : users Demo.db3 = [Demo.alice; Demo.bob]) by (vm_compute; reflexivity).
    rewrite E. left. reflexivity.
  - reflexivity.
Defined.

(** The example of the specification: after signup("alice", "a@x.com", "pw1"),
    signup("bob", "a@x.com", "pw2") fails and one user has that email. *)
Example one_user_per_email :
  let r := handle Demo.hashpw Demo.checkpw (Demo.env_at 200%N 2000%Z) Demo.db1
                  (Signup "bob" "a@x.com" "pw2") in
  fst r = ReplyError 400 "Email already registered"
  /\ map User.email (users (snd r)) = ["a@x.com"].
Proof. split; vm_compute; reflexivity. Qed.

(** No reachable database holds two users with one email. *)
Lemma reachable_users_email_unique (hashpw : string -> string -> Result string)
    (checkpw : string -> string -> Result bool) (db : DB) :
  reachable hashpw checkpw db -> users_email_unique db.
Proof.
  intros Hr. destruct (reachable_invariant hashpw checkpw db Hr) as [_ [_ H]].
  exact H.
Qed.

(** ** login *)

Lemma login_401 (hashpw : string -> string -> Result string)
    (checkpw : string -> string -> Result bool) (env : Env) (db : DB)
    (email password : string) :
  (forall u, In u (users db) -> User.email u = email ->
             checkpw password (User.password_hash u) = Ok false) ->
  handle hashpw checkpw env db (Login email password)
  = (ReplyError 401 "Invalid credentials", db).
Proof.
  intros H.
  unfold handle, serve, run, route, fmap, login.
  unfold bind at 1. unfold bind at 1. unfold db_query at 1. cbn [begin working].
  destruct (find (fun u0 => String.eqb (User.email u0) email) (users db))
    as [u|] eqn:Hfind; [|reflexivity].
  apply find_some in Hfind. destruct Hfind as [Hin Heq].
  apply String.eqb_eq in Heq. rewrite (H u Hin Heq). reflexivity.
Qed.

(** A login with an email nobody registered (db1) and a login with a
    registered email and a password that bcrypt checks and rejects (db2)
    get the same reply, 401 "Invalid credentials", and neither changes the
    database. *)
Theorem login_failure_indistinguishable (hashpw : string -> string -> Result string)
    (checkpw : string -> string -> Result bool) (env1 env2 : Env) (db1 db2 : DB)
    (email password : string) (u : User.t) :
  (forall u', In u' (users db1) -> User.email u' <> email) ->
  users_email_unique db2 ->
  In u (users db2) ->
  User.email u = email ->
  checkpw password (User.password_hash u) = Ok false ->
  handle hashpw checkpw env1 db1 (Login email password)
  = (ReplyError 401 "Invalid credentials", db1)
  /\ handle hashpw checkpw env2 db2 (Login email password)
     = (ReplyError 401 "Invalid credentials", db2)
  /\ fst (handle hashpw checkpw env1 db1 (Login email password))
     = fst (handle hashpw checkpw env2 db2 (Login email password)).
Proof.
  intros Habsent Huniq Hin Hem Hpw.
  assert (H1 : handle hashpw checkpw env1 db1 (Login email password)
               = (ReplyError 401 "Invalid credentials", db1)).
  { apply login_401. intros u' Hu' Heq. exfalso. exact (Habsent u' Hu' Heq). }
  assert (H2 : handle hashpw checkpw env2 db2 (Login email password)
               = (ReplyError 401 "Invalid credentials", db2)).
  { apply login_401. intros u' Hu' Heq.
    assert (u' = u) as ->; [|assumption].
    apply (NoDup_map_inj User.email (users db2)); try assumption. congruence. }
  rewrite H1, H2. repeat split.
Qed.

Lemma login_failure_indistinguishable_witness :
  handle Demo.hashpw Demo.checkpw (Demo.env_at 600%N 6000%Z) Demo.db1
         (Login "b@x.com" "pw1")
  = (ReplyError 401 "Invalid credentials", Demo.db1)
  /\ handle Demo.hashpw Demo.checkpw (Demo.env_at 700%N 7000%Z) Demo.db2
            (Login "b@x.com" "pw1")
     = (ReplyError 401 "Invalid credentials", Demo.db2)
  /\ fst (handle Demo.hashpw Demo.checkpw (Demo.env_at 600%N 6000%Z) Demo.db1
                 (Login "b@x.com" "pw1"))
     = fst (handle Demo.hashpw Demo.checkpw (Demo.env_at 700%N 7000%Z) Demo.db2
                   (Login "b@x.com" "pw1")).
Proof.
  assert (E1 : users Demo.db1 = [Demo.alice]) by (vm_compute; reflexivity).
  assert (E2 : users Demo.db2 = [Demo.alice; Demo.bob]) by (vm_compute; reflexivity).
  apply (login_failure_indistinguishable Demo.hashpw Demo.checkpw
           (Demo.env_at 600%N 6000%Z) (Demo.env_at 700%N 7000%Z)
           Demo.db1 Demo.db2 "b@x.com" "pw1" Demo.bob).
  - intros u' H. rewrite E1 in H. destruct H as [H|[]]. subst u'. discriminate.
  - unfold users_email_unique. rewrite E2. cbn.
    constructor; [intros [H|[]]; discriminate|].
    constructor; [intros []|constructor].
  - rewrite E2. right. left. reflexivity.
  - reflexivity.
  - reflexivity.
Defined.

(** bcrypt raising on the password of a registered user: nothing catches
    it, and the reply is 500. *)
Lemma login_checkpw_raises (hashpw : string -> string -> Result string)
    (checkpw : string -> string -> Result bool) (env : Env) (db : DB)
    (email password : string) (u : User.t) (what : string) :
  users_email_unique db ->
  In u (users db) ->
  User.email u = email ->
  checkpw password (User.password_hash u) = Raise (ValueError what) ->
  handle hashpw checkpw env db (Login email password)
  = (ReplyError 500 "Internal Server Error", db).
Proof.
  intros Huniq Hin Hem Hpw.
  unfold handle, serve, run, route, fmap, login.
  unfold bind at 1. unfold bind at 1. unfold db_query at 1. cbn [begin working].
  destruct (find (fun u0 => String.eqb (User.email u0) email) (users db))
    as [u'|] eqn:Hfind.
  - apply find_some in Hfind. destruct Hfind as [Hin' Heq].
    apply String.eqb_eq in Heq.
    assert (u' = u) as ->.
    { apply (NoDup_map_inj User.email (users db)); try assumption. congruence. }
    unfold bind at 1. rewrite Hpw. reflexivity.
  - exfalso. pose proof (find_none _ _ Hfind u Hin) as Hn. cbv beta in Hn.
    rewrite Hem, String.eqb_refl in Hn. discriminate.
Qed.

(** C5.  Two failed logins that can be told apart: with a password of 73
    bytes, which bcrypt refuses to check, the login with alice's registered
    email is answered 500, and the login with an email nobody registered is
    answered 401 "Invalid credentials". *)
Theorem login_oversize_password :
  handle Demo.hashpw Demo.checkpw (Demo.env_at 600%N 6000%Z) Demo.db1
         (Login "a@x.com" Demo.long_password)
  = (ReplyError 500 "Internal Server Error", Demo.db1)
  /\ handle Demo.hashpw Demo.checkpw (Demo.env_at 600%N 6000%Z) Demo.db1
            (Login "nobody@x.com" Demo.long_password)
     = (ReplyError 401 "Invalid credentials", Demo.db1)
  /\ String.length Demo.long_password = 73.
Proof. repeat split; vm_compute; reflexivity. Qed.

(** ** The example databases are reachable *)

Lemma demo_db3_reachable : reachable Demo.hashpw Demo.checkpw Demo.db3.
Proof.
  unfold Demo.db3, Demo.db2, Demo.db1.
  repeat apply reachable_step. apply reachable_empty.
Qed.

Lemma demo_db_skewed_reachable : reachable Demo.hashpw Demo.checkpw Demo.db_skewed.
Proof.
  unfold Demo.db_skewed, Demo.db2, Demo.db1.
  repeat apply reachable_step. apply reachable_empty.
Qed.

Lemma chunk_user_is_document_user_witness :
  Forall (fun c =>
            exists d, In d (documents Demo.db3)
                      /\ Document.doc_id d = Chunk.doc_id c
                      /\ Document.user_id d = Chunk.user_id c
                      /\ forall d', In d' (documents Demo.db3) ->
                                    Document.doc_id d' = Chunk.doc_id c -> d' = d)
         (chunks Demo.db3).
Proof.
  apply Forall_forall.
  exact (chunk_user_is_document_user Demo.hashpw Demo.checkpw Demo.db3
           demo_db3_reachable).
Defined.

Lemma ask_sources_are_own_witness :
  exists reply cs,
    run Demo.db3 (query_contracts (Demo.env_at 600%N 6000%Z) "termination" Demo.alice)
    = (Ok reply, Demo.db3)
    /\ Forall2 (source_from Demo.db3) cs (AskReply.sources reply)
    /\ Forall (fun ic =>
                 In (snd ic) (chunks Demo.db3)
                 /\ Chunk.user_id (snd ic) = User.user_id Demo.alice
                 /\ forall d v, In d (documents Demo.db3) ->
                                Document.doc_id d = Chunk.doc_id (snd ic) ->
                                User.user_id v <> User.user_id Demo.alice ->
                                Document.user_id d <> User.user_id v) cs.
Proof.
  exact (ask_sources_are_own Demo.hashpw Demo.checkpw Demo.db3 demo_db3_reachable
           (Demo.env_at 600%N 6000%Z) "termination" Demo.alice).
Defined.

(** The example of the specification: bob, who uploaded nothing, lists no
    contract and gets no source. *)
Example bob_sees_nothing :
  fst (handle Demo.hashpw Demo.checkpw (Demo.env_at 600%N 6000%Z) Demo.db3
              (ListContracts (Payload (Some (UuidText 200%N)))))
  = Reply200 (BodyList [])
  /\ fst (handle Demo.hashpw Demo.checkpw (Demo.env_at 600%N 6000%Z) Demo.db3
                 (Ask (Payload (Some (UuidText 200%N))) "termination"))
     = Reply200 (BodyAsk (AskReply.mk (answer_text "termination") 94 [])).
Proof. split; vm_compute; reflexivity. Qed.

(** ** Ranking and relevance *)

(** C7, as the code has it.  On every reachable database the sources of an
    answer are built from the first three chunks of the requesting user in
    the order of the table, the source at position i (from 0) carrying the
    relevance 85 + 3 i; the reply is the same whatever the random query
    embedding, and no similarity is computed. *)
Theorem ask_sources_first_three (hashpw : string -> string -> Result string)
    (checkpw : string -> string -> Result bool) (db : DB) :
  reachable hashpw checkpw db ->
  forall env query u,
    exists reply,
      run db (query_contracts env query u) = (Ok reply, db)
      /\ Forall2 (source_from db)
                 (enumerate (firstn 3 (filter (owned_by u) (chunks db))))
                 (AskReply.sources reply)
      /\ forall env', run db (query_contracts env' query u) = (Ok reply, db).
Proof.
  intros Hr env query u.
  destruct (query_contracts_reachable hashpw checkpw db Hr env query u)
    as [srcs [Hrun Hsrc]].
  eexists. split; [exact Hrun|]. split.
  - rewrite <- candidate_chunks_first_three. exact Hsrc.
  - intros env'. rewrite query_contracts_run in *. exact Hrun.
Qed.

Lemma ask_sources_first_three_witness :
  exists reply,
    run Demo.db_skewed
        (query_contracts (Demo.env_ones 600%N 6000%Z) "termination" Demo.alice)
    = (Ok reply, Demo.db_skewed)
    /\ Forall2 (source_from Demo.db_skewed)
               (enumerate (firstn 3 (filter (owned_by Demo.alice)
                                            (chunks Demo.db_skewed))))
               (AskReply.sources reply)
    /\ forall env',
         run Demo.db_skewed (query_contracts env' "termination" Demo.alice)
         = (Ok reply, Demo.db_skewed).
Proof.
  exact (ask_sources_first_three Demo.hashpw Demo.checkpw Demo.db_skewed
           demo_db_skewed_reachable (Demo.env_ones 600%N 6000%Z)
           "termination" Demo.alice).
Defined.

(** C7, as stated, fails: with alice's two chunks, the query embedding is
    closer (inner product and cosine) to the second chunk than to the
    first, and yet the first chunk is the first source; and the relevance
    of the first source is the lowest, not the highest. *)
Lemma ask_not_ranked_by_similarity :
  let db := Demo.db_skewed in
  let env := Demo.env_ones 600%N 6000%Z in
  let q := random_embedding env 0 in
  let candidates := filter (owned_by Demo.alice) (chunks db) in
  map Chunk.text_chunk candidates = [Demo.termination_clause; Demo.liability_cap]
  /\ map (fun c => inner_product q (Chunk.embedding c)) candidates
     = [192%float; 384%float]
  /\ map (fun c => PrimFloat.ltb (cosine_similarity q (Chunk.embedding c))
                                 0.75%float) candidates
     = [true; false]
  /\ exists reply,
       run db (query_contracts env "termination" Demo.alice) = (Ok reply, db)
       /\ map (fun s => (Source.excerpt s, Source.relevance s))
              (AskReply.sources reply)
          = [(Demo.termination_clause, 85%Z); (Demo.liability_cap, 88%Z)]
       /\ ~ descending (map Source.relevance (AskReply.sources reply)).
Proof.
  cbv zeta.
  split; [vm_compute; reflexivity|].
  split; [vm_compute; reflexivity|].
  split; [vm_compute; reflexivity|].
  destruct (query_contracts_reachable Demo.hashpw Demo.checkpw Demo.db_skewed
              demo_db_skewed_reachable (Demo.env_ones 600%N 6000%Z)
              "termination" Demo.alice) as [srcs [Hrun _]].
  assert (E : match fst (run Demo.db_skewed
                           (query_contracts (Demo.env_ones 600%N 6000%Z)
                                            "termination" Demo.alice)) with
              | Ok reply => map (fun s => (Source.excerpt s, Source.relevance s))
                                (AskReply.sources reply)
              | Raise _ => []
              end
              = [(Demo.termination_clause, 85%Z); (Demo.liability_cap, 88%Z)])
    by (vm_compute; reflexivity).
  rewrite Hrun in E. cbn [fst AskReply.sources] in E.
  eexists. split; [exact Hrun|]. cbn [AskReply.sources]. split; [exact E|].
  assert (E' : map Source.relevance srcs = [85%Z; 88%Z]).
  { rewrite <- (map_map (fun s => (Source.excerpt s, Source.relevance s)) snd).
    rewrite E. reflexivity. }
  rewrite E'. intros H. inversion H as [|? ? _ Hall]; subst.
  inversion Hall as [|? ? Hge _]; subst. unfold Z.ge in Hge. apply Hge. reflexivity.
Qed.

(** ** A user without chunks *)

Lemma filter_none {A : Type} (f : A -> bool) (l : list A) :
  (forall a, In a l -> f a = false) -> filter f l = [].
Proof.
  induction l as [|a l IH]; intros H; [reflexivity|]. simpl.
  rewrite (H a (or_introl eq_refl)). apply IH.
  intros b Hb. apply H. right. assumption.
Qed.

Lemma query_contracts_constant_confidence (env : Env) (db db' : DB)
    (query : string) (u : User.t) (reply : AskReply.t) :
  run db (query_contracts env query u) = (Ok reply, db') ->
  AskReply.confidence reply = 94%Z /\ AskReply.answer reply = answer_text query.
Proof.
  rewrite query_contracts_run.
  destruct (map_m source_of _ _) as [[srcs|e] s1]; [|discriminate].
  intros H. injection H as H _. subst reply. split; reflexivity.
Qed.

(** C8, as the code has it.  For a user who owns no chunk the request does
    not fail: the reply has no source, the generic answer text, and the
    confidence 94 -- the same text and the same confidence as every answer
    of the route, with or without sources. *)
Theorem ask_without_chunks (env : Env) (db : DB) (query : string) (u : User.t) :
  (forall c, In c (chunks db) -> Chunk.user_id c <> User.user_id u) ->
  run db (query_contracts env query u)
  = (Ok (AskReply.mk (answer_text query) 94 []), db)
  /\ forall env2 db2 db2' query2 u2 reply2,
       run db2 (query_contracts env2 query2 u2) = (Ok reply2, db2') ->
       AskReply.confidence reply2 = 94%Z
       /\ AskReply.answer reply2 = answer_text query2.
Proof.
  intros Hnone. split.
  - rewrite query_contracts_run. unfold candidate_chunks.
    rewrite filter_none; [reflexivity|].
    intros c Hc. apply N.eqb_neq. apply Hnone. assumption.
  - intros env2 db2 db2' query2 u2 reply2.
    apply query_contracts_constant_confidence.
Qed.

Lemma ask_without_chunks_witness :
  run Demo.db3 (query_contracts (Demo.env_at 600%N 6000%Z) "termination" Demo.bob)
  = (Ok (AskReply.mk (answer_text "termination") 94 []), Demo.db3)
  /\ forall env2 db2 db2' query2 u2 reply2,
       run db2 (query_contracts env2 query2 u2) = (Ok reply2, db2') ->
       AskReply.confidence reply2 = 94%Z
       /\ AskReply.answer reply2 = answer_text query2.
Proof.
  apply (ask_without_chunks (Demo.env_at 600%N 6000%Z) Demo.db3 "termination"
                            Demo.bob).
  assert (E : map Chunk.user_id (chunks Demo.db3) = [100%N; 100%N])
    by (vm_compute; reflexivity).
  intros c Hc Heq. apply (in_map Chunk.user_id) in Hc. rewrite E, Heq in Hc.
  destruct Hc as [H|[H|[]]]; discriminate.
Defined.

(** C8, as stated, fails: bob owns no chunk and gets no source, and the
    confidence of his answer is 94, the confidence alice gets with two
    sources: it is not lower. *)
Lemma ask_empty_confidence_not_low :
  exists reply_bob reply_alice,
    run Demo.db3 (query_contracts (Demo.env_at 600%N 6000%Z) "termination" Demo.bob)
    = (Ok reply_bob, Demo.db3)
    /\ run Demo.db3
           (query_contracts (Demo.env_at 600%N 6000%Z) "termination" Demo.alice)
       = (Ok reply_alice, Demo.db3)
    /\ AskReply.sources reply_bob = []
    /\ List.length (AskReply.sources reply_alice) = 2
    /\ AskReply.confidence reply_bob = 94%Z
    /\ AskReply.confidence reply_alice = 94%Z
    /\ ~ (AskReply.confidence reply_bob < AskReply.confidence reply_alice)%Z.
Proof.
  destruct (query_contracts_reachable Demo.hashpw Demo.checkpw Demo.db3
              demo_db3_reachable (Demo.env_at 600%N 6000%Z) "termination" Demo.bob)
    as [srcs0 [Hrun0 Hsrc0]].
  destruct (query_contracts_reachable Demo.hashpw Demo.checkpw Demo.db3
              demo_db3_reachable (Demo.env_at 600%N 6000%Z) "termination" Demo.alice)
    as [srcs1 [Hrun1 Hsrc1]].
  assert (E0 : enumerate (firstn 3 (candidate_chunks Demo.db3 Demo.bob)) = [])
    by (vm_compute; reflexivity).
  assert (E1 : List.length (enumerate (firstn 3 (candidate_chunks Demo.db3 Demo.alice)))
               = 2)
    by (vm_compute; reflexivity).
  rewrite E0 in Hsrc0. inversion Hsrc0; subst.
  apply Forall2_length in Hsrc1. rewrite E1 in Hsrc1.
  eexists. eexists. split; [exact Hrun0|]. split; [exact Hrun1|].
  cbn [AskReply.sources AskReply.confidence].
  repeat split; auto. apply Z.lt_irrefl.
Qed.

(** ** list_contracts *)

Lemma ascending_filter_map {A : Type} (f : A -> Z) (p : A -> bool) (l : list A) :
  ascending (map f l) -> ascending (map f (filter p l)).
Proof.
  unfold ascending. induction l as [|a l IH]; intros H; [constructor|].
  simpl in H. inversion H as [|? ? Hs Hall]; subst. simpl.
  destruct (p a); [|apply IH; assumption].
  simpl. constructor; [apply IH; assumption|].
  rewrite Forall_forall in *. intros z Hz.
  apply in_map_iff in Hz. destruct Hz as [b [Hb Hin]].
  apply filter_In in Hin. destruct Hin as [Hin _].
  apply Hall. subst z. apply in_map. assumption.
Qed.

(** C9, as the code has it.  list_contracts returns exactly the documents
    of the requesting user, in the order of the table (the order in which
    they were inserted: the query has no ORDER BY); that sequence ascends by
    upload timestamp when the timestamps of the table ascend. *)
Theorem list_contracts_store_order (db : DB) (u : User.t) :
  exists l,
    run db (list_contracts u) = (Ok l, db)
    /\ l = map summary_of
               (filter (fun d => N.eqb (Document.user_id d) (User.user_id u))
                       (documents db))
    /\ (forall x, In x l <->
                  exists d, In d (documents db)
                            /\ Document.user_id d = User.user_id u
                            /\ x = summary_of d)
    /\ (ascending (map Document.uploaded_on (documents db)) ->
        ascending (map ContractSummary.uploaded_on l)).
Proof.
  eexists. split; [apply list_contracts_run|]. split; [reflexivity|]. split.
  - intros x. rewrite in_map_iff. split.
    + intros [d [Hx Hin]]. apply filter_In in Hin. destruct Hin as [Hin Hu].
      apply N.eqb_eq in Hu. exists d. auto.
    + intros [d [Hin [Hu Hx]]]. exists d. split; [auto|].
      apply filter_In. split; [assumption|]. apply N.eqb_eq. assumption.
  - intros Hasc. rewrite map_map. cbn [summary_of ContractSummary.uploaded_on].
    apply ascending_filter_map. assumption.
Qed.

Lemma list_contracts_store_order_witness :
  exists l,
    run Demo.db3_later (list_contracts Demo.alice) = (Ok l, Demo.db3_later)
    /\ map ContractSummary.name l = ["lease.pdf"; "nda.txt"]
    /\ ascending (map ContractSummary.uploaded_on l).
Proof.
  destruct (list_contracts_store_order Demo.db3_later Demo.alice)
    as [l [Hrun [Hl [_ Hasc]]]].
  exists l. split; [exact Hrun|]. split.
  - rewrite Hl. vm_compute. reflexivity.
  - apply Hasc.
    assert (E : map Document.uploaded_on (documents Demo.db3_later)
                = [3000%Z; 4000%Z]) by (vm_compute; reflexivity).
    rewrite E. repeat constructor. discriminate.
Defined.

(** C9, as stated, fails: alice's three documents, uploaded while the wall
    clock was set back, are listed in the order of their insertion, which
    neither ascends nor descends by upload timestamp. *)
Lemma list_contracts_not_ordered :
  exists l,
    run Demo.db5 (list_contracts Demo.alice) = (Ok l, Demo.db5)
    /\ map ContractSummary.uploaded_on l = [3000%Z; 2000%Z; 2500%Z]
    /\ ~ ascending (map ContractSummary.uploaded_on l)
    /\ ~ descending (map ContractSummary.uploaded_on l).
Proof.
  eexists. split; [apply list_contracts_run|].
  assert (E : map ContractSummary.uploaded_on
                (map summary_of
                   (filter (fun d => N.eqb (Document.user_id d)
                                           (User.user_id Demo.alice))
                           (documents Demo.db5)))
              = [3000%Z; 2000%Z; 2500%Z]) by (vm_compute; reflexivity).
  rewrite E. split; [reflexivity|]. split.
  - intros H. inversion H as [|? ? _ Hall]; subst.
    inversion Hall as [|? ? Hle _]; subst. apply Hle. reflexivity.
  - intros H. inversion H as [|? ? Hrest _]; subst.
    inversion Hrest as [|? ? _ Hall]; subst.
    inversion Hall as [|? ? Hge _]; subst. apply Hge. reflexivity.
Qed.

(** * Further properties of the routes *)

(** ** get_current_user *)

Lemma find_existsb_false {A : Type} (f : A -> bool) (l : list A) :
  existsb f l = false -> find f l = None.
Proof.
  induction l as [|a l IH]; [reflexivity|]. simpl.
  destruct (f a); [discriminate|]. exact IH.
Qed.

Lemma handle_unauthenticated (hashpw : string -> string -> Result string)
    (checkpw : string -> string -> Result bool) (env : Env) (db : DB) (req : Request)
    (cred : Credentials) (e : Exn) :
  credentials_of req = Some cred ->
  get_current_user env cred (begin db) = (Raise e, begin db) ->
  handle hashpw checkpw env db req = (respond (Raise e), db).
Proof.
  intros Hc Hg.
  destruct req as [un em pw|em pw|c file|c|c cid|c q]; try discriminate;
    injection Hc as ->;
    unfold handle, serve, run, route, fmap, authenticated;
    unfold bind at 1; unfold bind at 1; rewrite Hg; reflexivity.
Qed.

(** Every route behind get_current_user answers 401 "Invalid token" to a
    token that does not decode or carries no "sub", 401 "User not found" to
    a token whose "sub" reads as a UUID that is no user's id, and 500 to a
    token whose "sub" does not read as a UUID; the route is not run and the
    database stays as it was. *)
Theorem bad_credentials_rejected (hashpw : string -> string -> Result string)
    (checkpw : string -> string -> Result bool) (env : Env) (db : DB) (req : Request)
    (cred : Credentials) :
  credentials_of req = Some cred ->
  (cred = InvalidJWT \/ cred = Payload None ->
   handle hashpw checkpw env db req = (ReplyError 401 "Invalid token", db))
  /\ (forall sub uid, cred = Payload (Some sub) ->
      id_of_text env sub = Ok uid -> has_user db uid = false ->
      handle hashpw checkpw env db req = (ReplyError 401 "User not found", db))
  /\ (forall sub e, cred = Payload (Some sub) ->
      id_of_text env sub = Raise e ->
      handle hashpw checkpw env db req
      = (ReplyError 500 "Internal Server Error", db)).
Proof.
  intros Hc. split; [|split].
  - intros [->| ->];
      apply (handle_unauthenticated hashpw checkpw env db req _
               (HTTPException 401 "Invalid token") Hc); reflexivity.
  - intros sub uid -> Hid Hnone.
    apply (handle_unauthenticated hashpw checkpw env db req _
             (HTTPException 401 "User not found") Hc).
    unfold get_current_user. unfold bind at 1. unfold db_query at 1.
    cbn [begin working]. unfold bind at 1. rewrite Hid. cbn [lift_result ret].
    unfold has_user in Hnone. rewrite (find_existsb_false _ _ Hnone). reflexivity.
  - intros sub e -> Hid.
    assert (He : e = DataError "invalid input syntax for type uuid").
    { destruct sub as [u|t]; cbn [id_of_text] in Hid; [discriminate|].
      destruct (uuid_in env t); [discriminate|]. congruence. }
    subst e.
    pose proof (handle_unauthenticated hashpw checkpw env db req _
                  (DataError "invalid input syntax for type uuid") Hc) as H.
    cbn [respond] in H. apply H.
    unfold get_current_user. unfold bind at 1. unfold db_query at 1.
    cbn [begin working]. unfold bind at 1. rewrite Hid. reflexivity.
Qed.

Lemma bad_credentials_rejected_witness :
  handle Demo.hashpw Demo.checkpw (Demo.env_at 600%N 6000%Z) Demo.db3
         (Upload InvalidJWT Demo.lease)
  = (ReplyError 401 "Invalid token", Demo.db3)
  /\ handle Demo.hashpw Demo.checkpw (Demo.env_at 600%N 6000%Z) Demo.db3
            (GetContract (Payload (Some (Text "00000000-0000-0000-0000-0000000003e7")))
                         (UuidText 303%N))
     = (ReplyError 401 "User not found", Demo.db3)
  /\ handle Demo.hashpw Demo.checkpw (Demo.env_at 600%N 6000%Z) Demo.db3
            (ListContracts (Payload (Some (Text "alice"))))
     = (ReplyError 500 "Internal Server Error", Demo.db3).
Proof.
  split; [|split].
  - apply (proj1 (bad_credentials_rejected Demo.hashpw Demo.checkpw
                    (Demo.env_at 600%N 6000%Z) Demo.db3
                    (Upload InvalidJWT Demo.lease) InvalidJWT eq_refl)).
    left. reflexivity.
  - apply (proj1 (proj2 (bad_credentials_rejected Demo.hashpw Demo.checkpw
                    (Demo.env_at 600%N 6000%Z) Demo.db3
                    (GetContract
                       (Payload (Some (Text "00000000-0000-0000-0000-0000000003e7")))
                       (UuidText 303%N))
                    (Payload (Some (Text "00000000-0000-0000-0000-0000000003e7")))
                    eq_refl))
             (Text "00000000-0000-0000-0000-0000000003e7") 999%N eq_refl).
    + vm_compute. reflexivity.
    + vm_compute. reflexivity.
  - apply (proj2 (proj2 (bad_credentials_rejected Demo.hashpw Demo.checkpw
                    (Demo.env_at 600%N 6000%Z) Demo.db3
                    (ListContracts (Payload (Some (Text "alice"))))
                    (Payload (Some (Text "alice"))) eq_refl))
             (Text "alice")
             (DataError "invalid input syntax for type uuid") eq_refl).
    vm_compute. reflexivity.
Defined.

(** ** What requests never do *)

(** login, list_contracts, get_contract and query_contracts leave the
    database exactly as they found it, whatever they reply. *)
Theorem read_requests_keep_database (hashpw : string -> string -> Result string)
    (checkpw : string -> string -> Result bool) (env : Env) (db : DB) (req : Request) :
  reads_only req = true ->
  snd (handle hashpw checkpw env db req) = db.
Proof.
  intros Hro. rewrite handle_db.
  destruct req as [un em pw|em pw|cred file|cred|cred cid|cred q];
    try discriminate; cbn [route]; rewrite fmap_session.
  - apply login_committed.
  - destruct (authenticated_cases env cred list_contracts (begin db))
      as [[e H]|[u H]]; rewrite H; reflexivity.
  - destruct (authenticated_cases env cred (get_contract env cid) (begin db))
      as [[e H]|[u H]]; rewrite H; [reflexivity|].
    rewrite get_contract_session. reflexivity.
  - destruct (authenticated_cases env cred (query_contracts env q) (begin db))
      as [[e H]|[u H]]; rewrite H; [reflexivity|].
    apply query_contracts_committed.
Qed.

Lemma read_requests_keep_database_witness :
  snd (handle Demo.hashpw Demo.checkpw (Demo.env_at 600%N 6000%Z) Demo.db3
              (Ask (Payload (Some (UuidText 100%N))) "termination"))
  = Demo.db3.
Proof.
  apply (read_requests_keep_database Demo.hashpw Demo.checkpw
           (Demo.env_at 600%N 6000%Z) Demo.db3
           (Ask (Payload (Some (UuidText 100%N))) "termination")).
  reflexivity.
Defined.

(** No request deletes or changes a row: after any request each table is
    the table before it with rows added at its end, at most one user and at
    most one document. *)
Theorem database_append_only (hashpw : string -> string -> Result string)
    (checkpw : string -> string -> Result bool) (env : Env) (db : DB) (req : Request) :
  exists us ds cs,
    users (snd (handle hashpw checkpw env db req)) = users db ++ us
    /\ documents (snd (handle hashpw checkpw env db req)) = documents db ++ ds
    /\ chunks (snd (handle hashpw checkpw env db req)) = chunks db ++ cs
    /\ List.length us <= 1
    /\ List.length ds <= 1
    /\ (ds = [] -> cs = []).
Proof.
  destruct (handle_effect hashpw checkpw env db req)
    as [H|[[Hd [Hk [u [Hu Hf]]]]|[document [cs [Hfresh [Hu [Hd [Hk Hcs]]]]]]]].
  - exists [], [], []. rewrite H, !app_nil_r. repeat split; auto.
  - exists [u], [], []. rewrite Hd, Hk, Hu, !app_nil_r. repeat split; auto.
  - exists [], [document], cs. rewrite Hd, Hk, Hu, !app_nil_r.
    repeat split; auto. discriminate.
Qed.

(** ** signup and login, the successful paths *)

Lemma find_existsb_true {A : Type} (f : A -> bool) (l : list A) :
  existsb f l = true -> exists a, find f l = Some a.
Proof.
  induction l as [|a l IH]; [discriminate|]. simpl.
  destruct (f a); [eauto|]. exact IH.
Qed.

(** Every outcome of signup, read off the environment of the request.  The
    password is hashed after the email is looked up and before anything is
    added to the session. *)
Lemma signup_run (hashpw : string -> string -> Result string) (env : Env) (db : DB)
    (username email password : string) :
  run db (signup hashpw env username email password)
  = if has_email db email
    then (Raise (HTTPException 400 "Email already registered"), db)
    else match hashpw password (gensalt env) with
         | Raise e => (Raise e, db)
         | Ok password_hash =>
             if negb (store_up env 0) then (Raise OperationalError, db)
             else if has_user db (uuid4 env 0)
                  then (Raise (IntegrityError "users_pkey"), db)
             else if negb (store_up env 1) then (Raise OperationalError, db)
             else (Ok (AuthReply.mk
                         (Token.mk (uuid4 env 0)
                                   (utcnow env 1 + timedelta_days 7)%Z)
                         (UserInfo.mk (uuid4 env 0) username email)),
                   mkDB (users db
                         ++ [User.mk (uuid4 env 0) username email
                                     password_hash (utcnow env 0)])
                        (documents db) (chunks db))
         end.
Proof.
  unfold run, signup, begin. unfold bind at 1. unfold db_query at 1.
  cbn [working].
  destruct (has_email db email) eqn:He.
  - unfold has_email in He. destruct (find_existsb_true _ _ He) as [u Hu].
    rewrite Hu. reflexivity.
  - pose proof He as Hfind. unfold has_email in Hfind.
    rewrite (find_existsb_false _ _ Hfind).
    unfold bind at 1.
    destruct (hashpw password (gensalt env)) as [password_hash|e];
      [|reflexivity].
    cbn [lift_result]. unfold ret at 1.
    unfold bind at 1. unfold db_add at 1, set_pending at 1.
    cbn [pending app committed working uuid_calls now_calls rand_calls trips].
    unfold bind at 1. unfold db_commit. unfold bind at 1.
    unfold db_flush at 1. cbn [pending].
    unfold rollback_on_error at 1. unfold bind at 1. unfold round_trip at 1.
    cbn [trips committed working pending uuid_calls now_calls rand_calls].
    destruct (store_up env 0); [|reflexivity]. cbn [negb].
    cbn [flush_rows insert_row].
    unfold bind, set_pending, draw_uuid, draw_now, lift_insert, insert_user,
      rollback_on_error, round_trip, set_working, ret, the_user, auth_reply.
    cbn [trips committed working pending uuid_calls now_calls rand_calls
         User.user_id User.email].
    destruct (has_user db (uuid4 env 0)); [reflexivity|].
    rewrite He.
    cbn [trips committed working pending uuid_calls now_calls rand_calls].
    destruct (store_up env 1); reflexivity.
Qed.



(** When bcrypt refuses the password (more than 72 bytes), signup with a
    free email is answered 500 and registers nobody. *)
Lemma signup_hashpw_raises (hashpw : string -> string -> Result string)
    (checkpw : string -> string -> Result bool) (env : Env) (db : DB)
    (username email password what : string) :
  has_email db email = false ->
  hashpw password (gensalt env) = Raise (ValueError what) ->
  handle hashpw checkpw env db (Signup username email password)
  = (ReplyError 500 "Internal Server Error", db).
Proof.
  intros He Hh.
  pose proof (signup_run hashpw env db username email password) as Hrun.
  rewrite He, Hh in Hrun.
  unfold handle, serve, route.
  unfold run in *. unfold fmap, bind at 1.
  destruct (signup hashpw env username email password (begin db)) as [r s'].
  injection Hrun as -> Hdb. cbn [respond]. rewrite Hdb. reflexivity.
Qed.

Example signup_long_password :
  handle Demo.hashpw Demo.checkpw (Demo.env_at 200%N 2000%Z) Demo.db1
         (Signup "bob" "b@x.com" Demo.long_password)
  = (ReplyError 500 "Internal Server Error", Demo.db1).
Proof. vm_compute. reflexivity. Qed.

(** signup is all or nothing: an error reply leaves the database as it
    was; a 200 reply means no user had the email before, and the database
    is the old one with one user added, whose id, username and email are
    those of the reply and of the token. *)
Theorem signup_all_or_nothing (hashpw : string -> string -> Result string)
    (checkpw : string -> string -> Result bool) (env : Env) (db : DB)
    (username email password : string) :
  match handle hashpw checkpw env db (Signup username email password) with
  | (ReplyError _ _, db') => db' = db
  | (Reply200 body, db') =>
      has_email db email = false
      /\ exists u,
           db' = mkDB (users db ++ [u]) (documents db) (chunks db)
           /\ User.username u = username
           /\ User.email u = email
           /\ hashpw password (gensalt env) = Ok (User.password_hash u)
           /\ exists exp,
                body = BodyAuth
                         (AuthReply.mk (Token.mk (User.user_id u) exp)
                            (UserInfo.mk (User.user_id u) username email))
  end.
Proof.
  pose proof (signup_run hashpw env db username email password) as Hrun.
  unfold handle, serve, route. unfold run in *. unfold fmap, bind at 1.
  destruct (signup hashpw env username email password (begin db)) as [r s'].
  destruct (has_email db email);
    [injection Hrun as Hr Hs; subst r; exact Hs|].
  destruct (hashpw password (gensalt env)) as [password_hash|e];
    [|injection Hrun as Hr Hs; subst r; destruct e; exact Hs].
  destruct (negb (store_up env 0));
    [injection Hrun as Hr Hs; subst r; exact Hs|].
  destruct (has_user db (uuid4 env 0));
    [injection Hrun as Hr Hs; subst r; exact Hs|].
  destruct (negb (store_up env 1));
    [injection Hrun as Hr Hs; subst r; exact Hs|].
  injection Hrun as Hr Hs. subst r. unfold ret. cbn [respond]. rewrite Hs.
  split; [reflexivity|]. eexists. split; [reflexivity|].
  cbn. repeat split. eexists. reflexivity.
Qed.

(** A user who has signed up can log in: with the email and the password
    of a successful signup, and a bcrypt that accepts the password against
    its own hash, login replies with a token for the id the signup gave. *)
Theorem signup_then_login (hashpw : string -> string -> Result string)
    (checkpw : string -> string -> Result bool) (env env' : Env) (db : DB)
    (username email password password_hash : string) :
  has_email db email = false ->
  has_user db (uuid4 env 0) = false ->
  store_up env 0 = true ->
  store_up env 1 = true ->
  hashpw password (gensalt env) = Ok password_hash ->
  checkpw password password_hash = Ok true ->
  let db' := snd (handle hashpw checkpw env db (Signup username email password)) in
  handle hashpw checkpw env' db' (Login email password)
  = (Reply200
       (BodyAuth
          (AuthReply.mk
             (Token.mk (uuid4 env 0) (utcnow env' 0 + 604800000000)%Z)
             (UserInfo.mk (uuid4 env 0) username email))),
     db').
Proof.
  intros He Hu H0 H1 Hh Hpw. cbv zeta.
  rewrite handle_db. cbn [route]. rewrite fmap_session.
  pose proof (signup_run hashpw env db username email password) as Hrun.
  rewrite He, Hh, Hu, H0, H1 in Hrun. cbn [negb] in Hrun. unfold run in Hrun.
  destruct (signup hashpw env username email password (begin db)) as [r s'].
  injection Hrun as _ Hs. cbn [snd]. rewrite Hs.
  unfold handle, serve, run, route, fmap, login.
  unfold bind at 1. unfold bind at 1. unfold db_query at 1.
  cbn [begin working users].
  assert (Hfind : find (fun u => String.eqb (User.email u) email)
                       (users db
                        ++ [User.mk (uuid4 env 0) username email
                                    password_hash (utcnow env 0)])
                  = Some (User.mk (uuid4 env 0) username email
                                  password_hash (utcnow env 0))).
  { unfold has_email in He. clear - He.
    induction (users db) as [|a l IH]; simpl in *.
    - rewrite String.eqb_refl. reflexivity.
    - destruct (String.eqb (User.email a) email); [discriminate|]. apply IH, He. }
  rewrite Hfind. cbn [User.password_hash]. unfold bind at 1.
  rewrite Hpw. reflexivity.
Qed.

Lemma signup_then_login_witness :
  handle Demo.hashpw Demo.checkpw (Demo.env_at 700%N 7000%Z)
         (snd (handle Demo.hashpw Demo.checkpw (Demo.env_at 200%N 2000%Z) Demo.db1
                      (Signup "bob" "b@x.com" "pw2")))
         (Login "b@x.com" "pw2")
  = (Reply200
       (BodyAuth
          (AuthReply.mk (Token.mk 200%N 604800007000%Z)
                        (UserInfo.mk 200%N "bob" "b@x.com"))),
     snd (handle Demo.hashpw Demo.checkpw (Demo.env_at 200%N 2000%Z) Demo.db1
                 (Signup "bob" "b@x.com" "pw2"))).
Proof.
  apply (signup_then_login Demo.hashpw Demo.checkpw (Demo.env_at 200%N 2000%Z)
           (Demo.env_at 700%N 7000%Z) Demo.db1 "bob" "b@x.com" "pw2" "saltpw2");
    vm_compute; reflexivity.
Defined.

(** ** The declared constraints hold in every reachable database *)

Lemma existsb_false_not_in {A B : Type} (g : A -> B) (eqb : B -> B -> bool)
    (l : list A) (b : B) :
  (forall x, eqb x b = true <-> x = b) ->
  existsb (fun a => eqb (g a) b) l = false -> ~ In b (map g l).
Proof.
  intros Heq H Hin. apply in_map_iff in Hin. destruct Hin as [a [Ha Hin]].
  assert (existsb (fun a => eqb (g a) b) l = true) as Ht.
  { apply existsb_exists. exists a. split; [assumption|]. apply Heq, Ha. }
  congruence.
Qed.

Lemma insert_user_ok (db db' : DB) (u : User.t) :
  schema_ok db -> insert_user db u = Ok db' -> schema_ok db'.
Proof.
  intros [Hu [He [Hd [Hc [Hfd Hfc]]]]]. unfold insert_user.
  destruct (has_user db (User.user_id u)) eqn:Hid; [discriminate|].
  destruct (has_email db (User.email u)) eqn:Hem; [discriminate|].
  intros H. injection H as <-. unfold schema_ok, has_user, has_document.
  cbn [users documents chunks]. repeat split.
  - rewrite map_app. apply NoDup_snoc; [assumption|].
    apply (existsb_false_not_in User.user_id N.eqb); [intros x; apply N.eqb_eq|exact Hid].
  - rewrite map_app. apply NoDup_snoc; [assumption|].
    apply has_email_false. assumption.
  - assumption.
  - assumption.
  - intros d Hin. rewrite existsb_app. apply orb_true_intro. left.
    apply (Hfd d Hin).
  - apply (Hfc c H).
  - rewrite existsb_app. apply orb_true_intro. left. apply (Hfc c H).
  - apply (Hfc c H).
Qed.

Lemma insert_document_ok (db db' : DB) (d : Document.t) :
  schema_ok db -> insert_document db d = Ok db' -> schema_ok db'.
Proof.
  intros [Hu [He [Hd [Hc [Hfd Hfc]]]]]. unfold insert_document.
  destruct (has_document db (Document.doc_id d)) eqn:Hid; [discriminate|].
  destruct (has_user db (Document.user_id d)) eqn:Hus; [|discriminate].
  intros H. injection H as <-. unfold schema_ok, has_user, has_document.
  cbn [users documents chunks negb]. repeat split; try assumption.
  - rewrite map_app. apply NoDup_snoc; [assumption|].
    apply has_document_false. assumption.
  - intros d0 Hin. apply in_app_or in Hin. destruct Hin as [Hin|[<-|[]]].
    + apply (Hfd d0 Hin).
    + exact Hus.
  - rewrite existsb_app. apply orb_true_intro. left. apply (Hfc c H).
  - apply (Hfc c H).
  - apply (Hfc c H).
Qed.

Lemma insert_chunk_ok (db db' : DB) (c : Chunk.t) :
  schema_ok db -> insert_chunk db c = Ok db' -> schema_ok db'.
Proof.
  intros [Hu [He [Hd [Hc [Hfd Hfc]]]]]. unfold insert_chunk.
  destruct (Nat.eqb (List.length (Chunk.embedding c)) VECTOR_DIM) eqn:Hlen;
    [|discriminate].
  destruct (has_chunk db (Chunk.chunk_id c)) eqn:Hid; [discriminate|].
  destruct (has_document db (Chunk.doc_id c)) eqn:Hdoc; [|discriminate].
  destruct (has_user db (Chunk.user_id c)) eqn:Hus; [|discriminate].
  intros H. injection H as <-. unfold schema_ok.
  cbn [users documents chunks negb]. repeat split; try assumption.
  - rewrite map_app. apply NoDup_snoc; [assumption|].
    apply (existsb_false_not_in Chunk.chunk_id N.eqb); [intros x; apply N.eqb_eq|exact Hid].
  - apply in_app_or in H. destruct H as [H|[<-|[]]];
      [apply (Hfc c0 H)|exact Hdoc].
  - apply in_app_or in H. destruct H as [H|[<-|[]]];
      [apply (Hfc c0 H)|exact Hus].
  - apply in_app_or in H. destruct H as [H|[<-|[]]];
      [apply (Hfc c0 H)|apply Nat.eqb_eq; exact Hlen].
Qed.

Lemma keeps_bind {A B : Type} (P : Session -> Prop) (m : M A) (k : A -> M B) :
  keeps P m -> (forall a, keeps P (k a)) -> keeps P (bind m k).
Proof.
  intros Hm Hk s Hs. unfold bind. specialize (Hm s Hs).
  destruct (m s) as [[a|e] s']; cbn [snd] in *; [apply Hk|]; assumption.
Qed.

Lemma keeps_ret {A : Type} (P : Session -> Prop) (a : A) : keeps P (ret a).
Proof. intros s Hs. exact Hs. Qed.

Lemma keeps_raise {A : Type} (P : Session -> Prop) (e : Exn) :
  keeps P (@raise A e).
Proof. intros s Hs. exact Hs. Qed.

Lemma keeps_draw_uuid (env : Env) : keeps session_ok (draw_uuid env).
Proof. intros s Hs. exact Hs. Qed.

Lemma keeps_draw_now (env : Env) : keeps session_ok (draw_now env).
Proof. intros s Hs. exact Hs. Qed.

Lemma keeps_draw_rand (env : Env) : keeps session_ok (draw_rand env).
Proof. intros s Hs. exact Hs. Qed.

Lemma keeps_round_trip (env : Env) : keeps session_ok (round_trip env).
Proof.
  intros s Hs. unfold round_trip. destruct (store_up env (trips s)); exact Hs.
Qed.

Lemma keeps_set_pending (p : list NewRow) : keeps session_ok (set_pending p).
Proof. intros s Hs. exact Hs. Qed.

Lemma keeps_db_add (r : NewRow) : keeps session_ok (db_add r).
Proof. intros s Hs. exact Hs. Qed.

Lemma keeps_db_query : keeps session_ok db_query.
Proof. intros s Hs. exact Hs. Qed.

Lemma keeps_lift_insert {A : Type} (f : DB -> A -> Result DB) (a : A) :
  (forall db db', schema_ok db -> f db a = Ok db' -> schema_ok db') ->
  keeps session_ok (lift_insert f a).
Proof.
  intros Hf s [Hc Hw]. unfold lift_insert.
  destruct (f (working s) a) as [w|e] eqn:E; [|split; assumption].
  split; [exact Hc|]. exact (Hf _ _ Hw E).
Qed.

Lemma keeps_lift_result {A : Type} (P : Session -> Prop) (r : Result A) :
  keeps P (lift_result r).
Proof. destruct r; intros s Hs; exact Hs. Qed.

Lemma keeps_insert_row (env : Env) (r : NewRow) :
  keeps session_ok (insert_row env r).
Proof.
  destruct r; cbn [insert_row];
    (apply keeps_bind; [apply keeps_draw_uuid|intros id]);
    (apply keeps_bind; [apply keeps_draw_now|intros now]);
    repeat (apply keeps_bind; [apply keeps_lift_result|intros ?]);
    (apply keeps_bind; [|intros _; apply keeps_ret]);
    apply keeps_lift_insert; intros db db'.
  - apply insert_user_ok.
  - apply insert_document_ok.
  - apply insert_chunk_ok.
Qed.

Lemma keeps_flush_rows (env : Env) (rows : list NewRow) :
  keeps session_ok (flush_rows env rows).
Proof.
  induction rows as [|r rows IH]; cbn [flush_rows]; [apply keeps_ret|].
  apply keeps_bind; [apply keeps_insert_row|intros x].
  apply keeps_bind; [exact IH|intros xs]. apply keeps_ret.
Qed.

Lemma keeps_rollback_on_error {A : Type} (m : M A) :
  keeps session_ok m -> keeps session_ok (rollback_on_error m).
Proof.
  intros Hm s Hs. unfold rollback_on_error. specialize (Hm s Hs).
  destruct (m s) as [[a|e] s']; cbn [snd] in *; [assumption|].
  destruct Hm as [Hc _]. split; exact Hc.
Qed.

Lemma keeps_db_flush (env : Env) : keeps session_ok (db_flush env).
Proof.
  intros s Hs. unfold db_flush. destruct (pending s) as [|r rows]; [exact Hs|].
  apply keeps_rollback_on_error; [|exact Hs].
  apply keeps_bind; [apply keeps_round_trip|intros _].
  apply keeps_bind; [apply keeps_set_pending|intros _].
  apply keeps_flush_rows.
Qed.

Lemma keeps_db_commit (env : Env) : keeps session_ok (db_commit env).
Proof.
  unfold db_commit.
  apply keeps_bind; [apply keeps_db_flush|intros rows].
  apply keeps_bind;
    [apply keeps_rollback_on_error; apply keeps_round_trip|intros _].
  intros s [_ Hw]. split; exact Hw.
Qed.

Lemma keeps_for_each {A : Type} (l : list A) (f : A -> M unit) :
  (forall a, keeps session_ok (f a)) -> keeps session_ok (for_each l f).
Proof.
  intros Hf. induction l as [|a l IH]; cbn [for_each]; [apply keeps_ret|].
  apply keeps_bind; [apply Hf|intros _; exact IH].
Qed.

Lemma keeps_map_m {A B : Type} (f : A -> M B) (l : list A) :
  (forall a, keeps session_ok (f a)) -> keeps session_ok (map_m f l).
Proof.
  intros Hf. induction l as [|a l IH]; cbn [map_m]; [apply keeps_ret|].
  apply keeps_bind; [apply Hf|intros b].
  apply keeps_bind; [exact IH|intros bs; apply keeps_ret].
Qed.

Lemma keeps_get_current_user (env : Env) (credentials : Credentials) :
  keeps session_ok (get_current_user env credentials).
Proof.
  destruct credentials as [|[sub|]]; cbn [get_current_user];
    try apply keeps_raise.
  apply keeps_bind; [apply keeps_db_query|intros db].
  apply keeps_bind; [apply keeps_lift_result|intros user_id].
  destruct (find _ (users db)); [apply keeps_ret|apply keeps_raise].
Qed.

Lemma keeps_authenticated {A : Type} (env : Env) (credentials : Credentials)
    (f : User.t -> M A) :
  (forall u, keeps session_ok (f u)) ->
  keeps session_ok (authenticated env credentials f).
Proof.
  intros Hf. unfold authenticated.
  apply keeps_bind; [apply keeps_get_current_user|exact Hf].
Qed.

Lemma keeps_fmap {A B : Type} (f : A -> B) (m : M A) :
  keeps session_ok m -> keeps session_ok (fmap f m).
Proof.
  intros Hm. unfold fmap. apply keeps_bind; [exact Hm|intros a; apply keeps_ret].
Qed.

Lemma keeps_mock_llamacloud_parse (env : Env) (c : list Byte.byte) (fn : string) :
  keeps session_ok (mock_llamacloud_parse env c fn).
Proof. intros s Hs. exact Hs. Qed.

Lemma keeps_upload_contract_with
    (parse : Env -> list Byte.byte -> string -> M Parsed.t)
    (env : Env) (file : UploadFile.t) (u : User.t) :
  (forall c fn, keeps session_ok (parse env c fn)) ->
  keeps session_ok (upload_contract_with parse env file u).
Proof.
  intros Hparse. unfold upload_contract_with.
  destruct (negb (existsb _ ALLOWED_CONTENT_TYPES)); [apply keeps_raise|].
  apply keeps_bind; [apply Hparse|intros parsed].
  apply keeps_bind; [apply keeps_db_add|intros _].
  apply keeps_bind; [apply keeps_db_flush|intros rows].
  apply keeps_bind.
  { unfold the_document. destruct rows as [|[?|d|?] [|? ?]];
      try apply keeps_raise. apply keeps_ret. }
  intros document.
  apply keeps_bind;
    [apply keeps_for_each; intros a; apply keeps_db_add|intros _].
  apply keeps_bind; [apply keeps_db_commit|intros _; apply keeps_ret].
Qed.

Lemma keeps_auth_reply (env : Env) (u : User.t) :
  keeps session_ok (auth_reply env u).
Proof.
  unfold auth_reply.
  apply keeps_bind; [apply keeps_draw_now|intros now; apply keeps_ret].
Qed.

Lemma keeps_signup (hashpw : string -> string -> Result string) (env : Env)
    (username email password : string) :
  keeps session_ok (signup hashpw env username email password).
Proof.
  unfold signup. apply keeps_bind; [apply keeps_db_query|intros db].
  destruct (find _ (users db)); [apply keeps_raise|].
  apply keeps_bind; [apply keeps_lift_result|intros password_hash].
  apply keeps_bind; [apply keeps_db_add|intros _].
  apply keeps_bind; [apply keeps_db_commit|intros rows].
  apply keeps_bind; [|intros u; apply keeps_auth_reply].
  unfold the_user. destruct rows as [|[u|?|?] [|? ?]];
    try apply keeps_raise. apply keeps_ret.
Qed.

Lemma keeps_route (hashpw : string -> string -> Result string)
    (checkpw : string -> string -> Result bool) (env : Env) (req : Request) :
  keeps session_ok (route hashpw checkpw env req).
Proof.
  destruct req as [un em pw|em pw|cred file|cred|cred cid|cred q];
    cbn [route]; apply keeps_fmap.
  - apply keeps_signup.
  - intros s Hs. unfold login, bind, db_query.
    destruct (find _ (users (working s))) as [u|]; [|exact Hs].
    destruct (checkpw pw (User.password_hash u)) as [[|]|e]; exact Hs.
  - apply keeps_authenticated. intros u.
    apply keeps_upload_contract_with. apply keeps_mock_llamacloud_parse.
  - apply keeps_authenticated. intros u s Hs. exact Hs.
  - apply keeps_authenticated. intros u s Hs.
    rewrite get_contract_session. exact Hs.
  - apply keeps_authenticated. intros u. unfold query_contracts.
    apply keeps_bind; [apply keeps_draw_rand|intros qe].
    apply keeps_bind; [apply keeps_db_query|intros db].
    apply keeps_bind; [|intros srcs; apply keeps_ret].
    apply keeps_map_m. intros ic s Hs. rewrite source_of_session. exact Hs.
Qed.

Lemma schema_ok_step (hashpw : string -> string -> Result string)
    (checkpw : string -> string -> Result bool) (env : Env) (db : DB) (req : Request) :
  schema_ok db -> schema_ok (snd (handle hashpw checkpw env db req)).
Proof.
  intros Hdb. rewrite handle_db.
  apply (keeps_route hashpw checkpw env req (begin db)).
  split; exact Hdb.
Qed.

Lemma reachable_schema_ok (hashpw : string -> string -> Result string)
    (checkpw : string -> string -> Result bool) (db : DB) :
  reachable hashpw checkpw db -> schema_ok db.
Proof.
  induction 1 as [|db env req Hr IH].
  - unfold schema_ok. cbn [empty_db users documents chunks map].
    split; [constructor|]. split; [constructor|]. split; [constructor|].
    split; [constructor|]. split; intros x [].
  - apply schema_ok_step. exact IH.
Qed.

(** In every database the application can reach, the constraints the
    models declare hold: user ids, emails, document ids and chunk ids are
    unique; the owner of every document and of every chunk is a user; the
    document of every chunk is a document; every embedding has 384
    components. *)
Theorem reachable_satisfies_schema (hashpw : string -> string -> Result string)
    (checkpw : string -> string -> Result bool) (db : DB) :
  reachable hashpw checkpw db ->
  NoDup (map User.user_id (users db))
  /\ NoDup (map User.email (users db))
  /\ NoDup (map Document.doc_id (documents db))
  /\ NoDup (map Chunk.chunk_id (chunks db))
  /\ (forall d, In d (documents db) ->
        exists u, In u (users db) /\ User.user_id u = Document.user_id d)
  /\ (forall c, In c (chunks db) ->
        (exists d, In d (documents db) /\ Document.doc_id d = Chunk.doc_id c)
        /\ (exists u, In u (users db) /\ User.user_id u = Chunk.user_id c)
        /\ List.length (Chunk.embedding c) = 384).
Proof.
  intros Hr.
  destruct (reachable_schema_ok hashpw checkpw db Hr)
    as [Hu [He [Hd [Hc [Hfd Hfc]]]]].
  repeat split; try assumption.
  - intros d Hin. specialize (Hfd d Hin). unfold has_user in Hfd.
    apply existsb_exists in Hfd. destruct Hfd as [u [Hu' Heq]].
    exists u. split; [assumption|]. apply N.eqb_eq. assumption.
  - destruct (Hfc c H) as [Hdoc _]. unfold has_document in Hdoc.
    apply existsb_exists in Hdoc. destruct Hdoc as [d [Hd' Heq]].
    exists d. split; [assumption|]. apply N.eqb_eq. assumption.
  - destruct (Hfc c H) as [_ [Hus _]]. unfold has_user in Hus.
    apply existsb_exists in Hus. destruct Hus as [u [Hu' Heq]].
    exists u. split; [assumption|]. apply N.eqb_eq. assumption.
  - destruct (Hfc c H) as [_ [_ Hlen]]. exact Hlen.
Qed.

Lemma reachable_satisfies_schema_witness :
  NoDup (map User.user_id (users Demo.db3))
  /\ NoDup (map User.email (users Demo.db3))
  /\ NoDup (map Document.doc_id (documents Demo.db3))
  /\ NoDup (map Chunk.chunk_id (chunks Demo.db3))
  /\ (forall d, In d (documents Demo.db3) ->
        exists u, In u (users Demo.db3) /\ User.user_id u = Document.user_id d)
  /\ (forall c, In c (chunks Demo.db3) ->
        (exists d, In d (documents Demo.db3)
                   /\ Document.doc_id d = Chunk.doc_id c)
        /\ (exists u, In u (users Demo.db3) /\ User.user_id u = Chunk.user_id c)
        /\ List.length (Chunk.embedding c) = 384).
Proof.
  exact (reachable_satisfies_schema Demo.hashpw Demo.checkpw Demo.db3
           demo_db3_reachable).
Defined.

(** ** login and the token it issues *)

Lemma find_by_key {A : Type} (g : A -> N) (l : list A) (a : A) :
  NoDup (map g l) -> In a l ->
  find (fun x => N.eqb (g x) (g a)) l = Some a.
Proof.
  induction l as [|x l IH]; intros Hnd Hin; [contradiction|].
  cbn [find]. destruct (N.eqb (g x) (g a)) eqn:E.
  - apply N.eqb_eq in E. f_equal.
    apply (NoDup_map_inj g (x :: l)); try assumption. left. reflexivity.
  - destruct Hin as [->|Hin]; [rewrite N.eqb_refl in E; discriminate|].
    cbn [map] in Hnd. inversion Hnd; subst. apply IH; assumption.
Qed.

Lemma handle_login_db (hashpw : string -> string -> Result string)
    (checkpw : string -> string -> Result bool) (env : Env) (db : DB)
    (email password : string) :
  snd (handle hashpw checkpw env db (Login email password)) = db.
Proof.
  rewrite handle_db. cbn [route]. rewrite fmap_session. apply login_committed.
Qed.

(** A 200 reply of login means: a registered user has the email, bcrypt
    accepts the password against that user's hash, the token is for that
    user's id and expires seven days after the request, the database is
    unchanged, and get_current_user resolves the token's "sub" to that very
    user. *)
Theorem login_token_resolves (hashpw : string -> string -> Result string)
    (checkpw : string -> string -> Result bool) (env : Env) (db db' : DB)
    (email password : string) (body : Body) :
  reachable hashpw checkpw db ->
  handle hashpw checkpw env db (Login email password) = (Reply200 body, db') ->
  db' = db
  /\ exists u,
       In u (users db)
       /\ User.email u = email
       /\ checkpw password (User.password_hash u) = Ok true
       /\ body = BodyAuth
                   (AuthReply.mk
                      (Token.mk (User.user_id u) (utcnow env 0 + 604800000000)%Z)
                      (UserInfo.mk (User.user_id u) (User.username u) email))
       /\ forall env',
            run db (get_current_user env'
                      (Payload (Some (UuidText (User.user_id u)))))
            = (Ok u, db).
Proof.
  intros Hr. unfold handle, serve, run, route, fmap, login.
  unfold bind at 1. unfold bind at 1. unfold db_query at 1.
  cbn [begin working].
  destruct (find (fun u => String.eqb (User.email u) email) (users db))
    as [u|] eqn:Hfind; [|discriminate].
  unfold bind at 1.
  destruct (checkpw password (User.password_hash u)) as [[|]|e] eqn:Hpw;
    [|discriminate|destruct e; discriminate].
  cbn. intros H. injection H as Hb Hdb. split; [symmetry; exact Hdb|].
  apply find_some in Hfind. destruct Hfind as [Hin Hem].
  apply String.eqb_eq in Hem.
  exists u. repeat split; try assumption.
  - rewrite <- Hb, Hem. reflexivity.
  - intros env'. unfold get_current_user, bind, db_query, id_of_text.
    cbn [begin working lift_result ret].
    destruct (reachable_schema_ok hashpw checkpw db Hr) as [Hu _].
    rewrite (find_by_key User.user_id (users db) u Hu Hin). reflexivity.
Qed.

Lemma login_token_resolves_witness :
  Demo.db3 = Demo.db3
  /\ exists u,
       In u (users Demo.db3)
       /\ User.email u = "a@x.com"
       /\ Demo.checkpw "pw1" (User.password_hash u) = Ok true
       /\ BodyAuth (AuthReply.mk (Token.mk 100%N 604800006000%Z)
                                 (UserInfo.mk 100%N "alice" "a@x.com"))
          = BodyAuth
              (AuthReply.mk
                 (Token.mk (User.user_id u)
                           (utcnow (Demo.env_at 600%N 6000%Z) 0 + 604800000000)%Z)
                 (UserInfo.mk (User.user_id u) (User.username u) "a@x.com"))
       /\ forall env',
            run Demo.db3 (get_current_user env'
                            (Payload (Some (UuidText (User.user_id u)))))
            = (Ok u, Demo.db3).
Proof.
  pose proof (login_token_resolves Demo.hashpw Demo.checkpw
                (Demo.env_at 600%N 6000%Z) Demo.db3 Demo.db3 "a@x.com" "pw1"
                (BodyAuth (AuthReply.mk (Token.mk 100%N 604800006000%Z)
                                        (UserInfo.mk 100%N "alice" "a@x.com")))
                demo_db3_reachable) as H.
  apply H. clear H.
  assert (E : fst (handle Demo.hashpw Demo.checkpw (Demo.env_at 600%N 6000%Z)
                            Demo.db3 (Login "a@x.com" "pw1"))
                = Reply200 (BodyAuth (AuthReply.mk (Token.mk 100%N 604800006000%Z)
                                        (UserInfo.mk 100%N "alice" "a@x.com"))))
      by (vm_compute; reflexivity).
    assert (Hdb : snd (handle Demo.hashpw Demo.checkpw (Demo.env_at 600%N 6000%Z)
                              Demo.db3 (Login "a@x.com" "pw1"))
                  = Demo.db3)
      by exact (handle_login_db Demo.hashpw Demo.checkpw
                  (Demo.env_at 600%N 6000%Z) Demo.db3 "a@x.com" "pw1").
    destruct (handle Demo.hashpw Demo.checkpw (Demo.env_at 600%N 6000%Z)
                     Demo.db3 (Login "a@x.com" "pw1")) as [r d].
    cbn [fst snd] in E, Hdb. rewrite E, Hdb. reflexivity.
Defined.

(** ** get_contract, the successful path *)

(** On a reachable database a 200 reply of get_contract describes the
    document with the asked id, which the requesting user owns, and lists
    exactly the chunks of that document, every one of them owned by the
    requesting user, although the chunks are selected by document id only. *)
Theorem get_contract_returns_own (hashpw : string -> string -> Result string)
    (checkpw : string -> string -> Result bool) (env : Env) (db db' : DB)
    (contract_id : IdText) (u : User.t) (detail : ContractDetail.t) :
  reachable hashpw checkpw db ->
  run db (get_contract env contract_id u) = (Ok detail, db') ->
  db' = db
  /\ exists cid d,
       id_of_text env contract_id = Ok cid
       /\ In d (documents db)
       /\ Document.doc_id d = cid
       /\ Document.user_id d = User.user_id u
       /\ detail = ContractDetail.mk cid (Document.filename d)
                     (Document.status d) (Document.risk_score d)
                     (map chunk_view
                          (filter (fun c => N.eqb (Chunk.doc_id c) cid) (chunks db)))
       /\ Forall (fun c => Chunk.user_id c = User.user_id u)
                 (filter (fun c => N.eqb (Chunk.doc_id c) cid) (chunks db)).
Proof.
  intros Hr. unfold run, get_contract, bind, db_query. cbn [begin working].
  destruct (id_of_text env contract_id) as [cid|e]; cbn [lift_result ret raise];
    [|discriminate].
  destruct (find _ (documents db)) as [d|] eqn:Hfind; [|discriminate].
  cbn. intros H. injection H as Hdet Hdb. split; [symmetry; exact Hdb|].
  apply find_some in Hfind. destruct Hfind as [Hin Hboth].
  apply andb_prop in Hboth. destruct Hboth as [Hid Hus].
  apply N.eqb_eq in Hid. apply N.eqb_eq in Hus.
  exists cid, d. split; [reflexivity|].
  split; [exact Hin|]. split; [exact Hid|]. split; [exact Hus|].
  split; [rewrite <- Hdet, Hid; reflexivity|].
  apply Forall_forall. intros c Hc. apply filter_In in Hc.
  destruct Hc as [Hc Hcd]. apply N.eqb_eq in Hcd.
  destruct (reachable_invariant hashpw checkpw db Hr) as [Hpk [Hown _]].
  destruct (Hown c Hc) as [d0 [Hd0 [Hid0 Hu0]]].
  assert (d0 = d) as ->.
  { apply (NoDup_map_inj Document.doc_id (documents db)); try assumption.
    congruence. }
  congruence.
Qed.

Lemma get_contract_run_db (env : Env) (db : DB) (t : IdText) (u : User.t) :
  snd (run db (get_contract env t u)) = db.
Proof.
  unfold run. pose proof (get_contract_session env t u (begin db)) as H.
  destruct (get_contract env t u (begin db)) as [r s]. cbn [snd] in *.
  rewrite H. reflexivity.
Qed.

(** The identifier arrives as the text of the path, here in upper case and
    in braces, which the database reads as the uuid 303. *)
Lemma get_contract_returns_own_witness :
  exists detail,
    run Demo.db3
        (get_contract (Demo.env_at 600%N 6000%Z)
                      (Text "{00000000-0000-0000-0000-00000000012F}") Demo.alice)
    = (Ok detail, Demo.db3)
    /\ map ChunkView.text (ContractDetail.chunks detail)
       = [Demo.termination_clause; Demo.liability_cap]
    /\ exists cid d,
         id_of_text (Demo.env_at 600%N 6000%Z)
                    (Text "{00000000-0000-0000-0000-00000000012F}") = Ok cid
         /\ In d (documents Demo.db3)
         /\ Document.doc_id d = cid
         /\ Document.user_id d = User.user_id Demo.alice
         /\ detail = ContractDetail.mk cid (Document.filename d)
                       (Document.status d) (Document.risk_score d)
                       (map chunk_view
                            (filter (fun c => N.eqb (Chunk.doc_id c) cid)
                                    (chunks Demo.db3)))
         /\ Forall (fun c => Chunk.user_id c = User.user_id Demo.alice)
                   (filter (fun c => N.eqb (Chunk.doc_id c) cid)
                           (chunks Demo.db3)).
Proof.
  pose proof (get_contract_run_db (Demo.env_at 600%N 6000%Z) Demo.db3
                (Text "{00000000-0000-0000-0000-00000000012F}") Demo.alice)
    as Hdb.
  assert (Hok : match fst (run Demo.db3
                             (get_contract (Demo.env_at 600%N 6000%Z)
                                (Text "{00000000-0000-0000-0000-00000000012F}")
                                Demo.alice)) with
                | Ok detail => map ChunkView.text (ContractDetail.chunks detail)
                | Raise _ => []
                end = [Demo.termination_clause; Demo.liability_cap])
    by (vm_compute; reflexivity).
  destruct (run Demo.db3
              (get_contract (Demo.env_at 600%N 6000%Z)
                 (Text "{00000000-0000-0000-0000-00000000012F}") Demo.alice))
    as [[detail|e] d] eqn:E;
    cbn [fst snd] in Hdb, Hok; [|discriminate].
  rewrite Hdb in E. exists detail. split; [rewrite Hdb; reflexivity|].
  split; [exact Hok|].
  pose proof (get_contract_returns_own Demo.hashpw Demo.checkpw
                (Demo.env_at 600%N 6000%Z) Demo.db3 Demo.db3
                (Text "{00000000-0000-0000-0000-00000000012F}") Demo.alice detail
                demo_db3_reachable E) as H.
  exact (proj2 H).
Defined.

(** ** query_contracts, sizes *)

Lemma In_enumerate_index {A : Type} (l : list A) (i : Z) (a : A) :
  In (i, a) (enumerate l) -> (0 <= i < Z.of_nat (List.length l))%Z.
Proof.
  unfold enumerate. intros H. apply in_combine_l in H.
  apply in_map_iff in H. destruct H as [n [Hn Hin]].
  apply in_seq in Hin. lia.
Qed.

Lemma length_enumerate {A : Type} (l : list A) :
  List.length (enumerate l) = List.length l.
Proof.
  unfold enumerate. rewrite length_combine, length_map, length_seq.
  apply Nat.min_id.
Qed.

Lemma Forall2_right {A B : Type} (P : A -> B -> Prop) (l : list A) (l' : list B) :
  Forall2 P l l' -> Forall (fun b => exists a, In a l /\ P a b) l'.
Proof.
  induction 1 as [|a b l l' Hab _ IH]; constructor.
  - exists a. split; [left; reflexivity|exact Hab].
  - apply Forall_forall. rewrite Forall_forall in IH. intros b' Hb'.
    destruct (IH b' Hb') as [a' [Ha' Hp]]. exists a'. split; [right|]; assumption.
Qed.

(** On a reachable database an answer has as many sources as the user has
    chunks, up to three (the query reads five rows and keeps three), and the
    relevance of every source is 85, 88 or 91. *)
Theorem ask_sources_count (hashpw : string -> string -> Result string)
    (checkpw : string -> string -> Result bool) (db : DB) :
  reachable hashpw checkpw db ->
  forall env query u,
    exists reply,
      run db (query_contracts env query u) = (Ok reply, db)
      /\ List.length (AskReply.sources reply)
         = Nat.min 3 (List.length (filter (owned_by u) (chunks db)))
      /\ Forall (fun s => Source.relevance s = 85%Z
                          \/ Source.relevance s = 88%Z
                          \/ Source.relevance s = 91%Z)
                (AskReply.sources reply).
Proof.
  intros Hr env query u.
  destruct (query_contracts_reachable hashpw checkpw db Hr env query u)
    as [srcs [Hrun Hsrc]].
  eexists. split; [exact Hrun|]. cbn [AskReply.sources]. split.
  - apply Forall2_length in Hsrc. rewrite <- Hsrc, length_enumerate.
    rewrite candidate_chunks_first_three. apply length_firstn.
  - apply Forall2_right in Hsrc. rewrite Forall_forall in *. intros s Hs.
    destruct (Hsrc s Hs) as [[i c] [Hin [d [_ [_ [_ [_ [_ Hrel]]]]]]]].
    apply In_enumerate_index in Hin. cbn [fst] in Hrel.
    assert (Hlen : (List.length (firstn 3 (candidate_chunks db u)) <= 3)%nat)
      by apply firstn_le_length.
    assert (i = 0 \/ i = 1 \/ i = 2)%Z as [Hi | [Hi | Hi]] by lia;
      subst i; rewrite Hrel; auto.
Qed.

Lemma ask_sources_count_witness :
  exists reply,
    run Demo.db5 (query_contracts (Demo.env_at 600%N 6000%Z) "fees" Demo.alice)
    = (Ok reply, Demo.db5)
    /\ List.length (AskReply.sources reply)
       = Nat.min 3 (List.length (filter (owned_by Demo.alice) (chunks Demo.db5)))
    /\ Forall (fun s => Source.relevance s = 85%Z
                        \/ Source.relevance s = 88%Z
                        \/ Source.relevance s = 91%Z)
              (AskReply.sources reply).
Proof.
  assert (Hr : reachable Demo.hashpw Demo.checkpw Demo.db5).
  { unfold Demo.db5, Demo.db4. do 2 apply reachable_step.
    exact demo_db3_reachable. }
  exact (ask_sources_count Demo.hashpw Demo.checkpw Demo.db5 Hr
           (Demo.env_at 600%N 6000%Z) "fees" Demo.alice).
Defined.

(** ** upload_contract, the successful path *)

Lemma length_random_embedding (env : Env) (k : nat) :
  List.length (random_embedding env k) = VECTOR_DIM.
Proof. unfold random_embedding. rewrite length_map, length_seq. reflexivity. Qed.

(** The pages of the mock parse are stored as they are. *)
Lemma mock_page_stored (env : Env) (page : Z) (filename : string) :
  fits_int4 page = true ->
  integer_column env
    (dict_get [("page", PyInt page); ("contract_name", PyStr filename)]
              "page" (PyInt 1))
  = Ok (PyInt page).
Proof.
  intros Hfits. unfold dict_get. cbn [dict_lookup String.eqb Ascii.eqb Bool.eqb].
  unfold integer_column. rewrite Hfits. reflexivity.
Qed.

(** Runs the session operations of the goal as far as they are decided. *)
Ltac session_step :=
  cbv beta iota zeta delta
    [bind ret raise draw_uuid draw_now draw_rand round_trip set_working
     set_pending db_query db_add lift_insert lift_result vector_bind insert_row
     flush_rows
     rollback_on_error db_flush db_commit the_document for_each new_chunk
     insert_document insert_chunk has_user has_document has_chunk];
  cbn [app committed working pending uuid_calls now_calls rand_calls trips
       Parsed.chunks Parsed.text Parsed.embedding Parsed.metadata
       Document.doc_id Document.user_id Chunk.chunk_id Chunk.doc_id
       Chunk.user_id Chunk.embedding users documents chunks].

Lemma upload_contract_run (env : Env) (db : DB) (file : UploadFile.t) (u : User.t) :
  existsb (String.eqb (UploadFile.content_type file)) ALLOWED_CONTENT_TYPES = true ->
  has_user db (User.user_id u) = true ->
  store_up env 0 = true -> store_up env 1 = true -> store_up env 2 = true ->
  has_document db (uuid4 env 3) = false ->
  has_chunk db (uuid4 env 4) = false ->
  has_chunk db (uuid4 env 5) = false ->
  uuid4 env 4 <> uuid4 env 5 ->
  run db (upload_contract env file u)
  = (Ok (UploadReply.mk (uuid4 env 3) (UploadFile.filename file) 2),
     mkDB (users db)
          (documents db
           ++ [Document.mk (uuid4 env 3) (User.user_id u) (UploadFile.filename file)
                           (utcnow env 0) None "Active" "Low"])
          (chunks db
           ++ mock_chunk_rows env (uuid4 env 3) (User.user_id u)
                              (UploadFile.filename file))).
Proof.
  intros Hct Hu H0 H1 H2 Hd Hc4 Hc5 Hne.
  unfold run, upload_contract, upload_contract_with, begin, mock_llamacloud_parse.
  rewrite Hct. cbn [negb].
  unfold has_user, has_document, has_chunk in *.
  session_step. rewrite H0. session_step.
  rewrite Hd, Hu. cbn [negb]. session_step.
  rewrite H1. session_step.
  apply N.eqb_neq in Hne.
  rewrite ?length_random_embedding, ?Nat.eqb_refl. session_step.
  rewrite (mock_page_stored env 2 (UploadFile.filename file) eq_refl).
  session_step.
  rewrite ?length_random_embedding, ?Nat.eqb_refl, !existsb_app, Hc4, Hu.
  cbn [existsb negb orb Chunk.chunk_id Document.doc_id].
  rewrite !N.eqb_refl. cbn [negb orb]. rewrite !orb_true_r. cbn [negb].
  session_step.
  rewrite ?length_random_embedding, ?Nat.eqb_refl. session_step.
  rewrite (mock_page_stored env 5 (UploadFile.filename file) eq_refl).
  session_step.
  rewrite ?length_random_embedding, ?Nat.eqb_refl, !existsb_app, Hc5, Hu.
  cbn [existsb negb orb Chunk.chunk_id Document.doc_id].
  rewrite !N.eqb_refl, Hne. cbn [negb orb]. rewrite !orb_true_r. cbn [negb].
  session_step.
  rewrite H2. session_step.
  rewrite <- app_assoc. reflexivity.
Qed.

Lemma handle_upload_authenticated (hashpw : string -> string -> Result string)
    (checkpw : string -> string -> Result bool) (env : Env) (db : DB)
    (sub : IdText) (uid : UUID) (file : UploadFile.t) (u : User.t) :
  id_of_text env sub = Ok uid ->
  find (fun x => N.eqb (User.user_id x) uid) (users db) = Some u ->
  handle hashpw checkpw env db (Upload (Payload (Some sub)) file)
  = match run db (upload_contract env file u) with
    | (Ok r, db') => (Reply200 (BodyUpload r), db')
    | (Raise e, db') => (respond (Raise e), db')
    end.
Proof.
  intros Hsub Hfind.
  unfold handle, serve, run, route, fmap, authenticated, get_current_user.
  unfold bind at 1. unfold bind at 1. unfold bind at 1. unfold db_query at 1.
  cbn [begin working]. unfold bind at 1. rewrite Hsub. cbn [lift_result].
  unfold ret at 1. rewrite Hfind. unfold ret at 1.
  destruct (upload_contract env file u _) as [[r|e] s']; reflexivity.
Qed.



(** ** upload_contract, then the reading routes *)

(** [upload_outcome], with the columns the route fixes for the document. *)
Lemma upload_outcome_full (parse : Env -> list Byte.byte -> string -> M Parsed.t)
    (env : Env) (file : UploadFile.t) (u : User.t) (s : Session) :
  (forall c fn, session_free (parse env c fn)) ->
  pending s = [] ->
  working s = committed s ->
  match upload_contract_with parse env file u s with
  | (Raise _, s') => committed s' = committed s
  | (Ok reply, s') =>
      exists parsed s1 document cs,
        parse env (UploadFile.content file) (UploadFile.filename file) s
        = (Ok parsed, s1)
        /\ has_document (committed s) (Document.doc_id document) = false
        /\ Document.user_id document = User.user_id u
        /\ Document.filename document = UploadFile.filename file
        /\ Document.status document = "Active"
        /\ Document.risk_score document = "Low"
        /\ Document.expiry_date document = None
        /\ users (committed s') = users (committed s)
        /\ documents (committed s') = documents (committed s) ++ [document]
        /\ chunks (committed s') = chunks (committed s) ++ cs
        /\ Forall2 (persisted_from env document u) (Parsed.chunks parsed) cs
        /\ reply = UploadReply.mk (Document.doc_id document)
                                  (UploadFile.filename file)
                                  (List.length (Parsed.chunks parsed))
  end.
Proof.
  intros Hfree Hp Hw. unfold upload_contract_with.
  destruct (negb (existsb _ ALLOWED_CONTENT_TYPES)); [reflexivity|].
  unfold bind at 1.
  destruct (Hfree (UploadFile.content file) (UploadFile.filename file) s)
    as [Hc1 [Hw1 Hp1]].
  destruct (parse env (UploadFile.content file) (UploadFile.filename file) s)
    as [[parsed|e] s1] eqn:Eparse; simpl in Hc1, Hw1, Hp1; [|assumption].
  rewrite Hp in Hp1. rewrite Hw in Hw1.
  unfold bind at 1. unfold db_add at 1. unfold set_pending at 1.
  rewrite Hp1. cbn [app].
  unfold bind at 1. unfold db_flush at 1. cbn [pending].
  unfold rollback_on_error at 1. unfold bind at 1. unfold round_trip at 1.
  cbn [trips committed working pending uuid_calls now_calls rand_calls].
  destruct (store_up env (trips s1)); [|cbn; assumption].
  unfold bind at 1. unfold set_pending at 1.
  cbn [trips committed working pending uuid_calls now_calls rand_calls].
  cbn [flush_rows insert_row].
  unfold bind at 1. unfold bind at 1. unfold draw_uuid at 1.
  unfold bind at 1. unfold draw_now at 1.
  cbn [trips committed working pending uuid_calls now_calls rand_calls].
  unfold bind at 1. unfold lift_insert at 1. unfold insert_document.
  cbn [trips committed working pending uuid_calls now_calls rand_calls
       Document.doc_id Document.user_id].
  rewrite Hw1.
  destruct (has_document (committed s) (uuid4 env (uuid_calls s1))) eqn:Hfresh;
    [cbn; assumption|].
  destruct (negb (has_user (committed s) (User.user_id u))); [cbn; assumption|].
  cbn [set_working ret bind flush_rows the_document
       trips committed working pending uuid_calls now_calls rand_calls].
  set (document := Document.mk (uuid4 env (uuid_calls s1)) (User.user_id u)
                               (UploadFile.filename file)
                               (utcnow env (now_calls s1)) None "Active" "Low").
  unfold bind at 1. rewrite for_each_add. unfold bind at 1.
  cbn [trips committed working pending uuid_calls now_calls rand_calls app].
  match goal with |- context [db_commit env ?s2] =>
    pose proof (commit_chunks env document u (Parsed.chunks parsed) s2 eq_refl) as H
  end.
  destruct (db_commit env _) as [[rows|e] s'].
  - destruct H as [cs [Hu [Hd [Hk Hf]]]]. cbn in Hu, Hd, Hk.
    exists parsed, s1, document, cs.
    rewrite Hu, Hd, Hk. repeat split; auto.
  - cbn in H. rewrite H. assumption.
Qed.

Lemma find_snoc {A : Type} (f : A -> bool) (l : list A) (a : A) :
  (forall x, In x l -> f x = false) -> f a = true ->
  find f (l ++ [a]) = Some a.
Proof.
  intros Hl Ha. induction l as [|x l IH]; cbn [app find].
  - rewrite Ha. reflexivity.
  - rewrite (Hl x (or_introl eq_refl)). apply IH.
    intros y Hy. apply Hl. right. exact Hy.
Qed.

Lemma filter_all {A : Type} (f : A -> bool) (l : list A) :
  (forall a, In a l -> f a = true) -> filter f l = l.
Proof.
  induction l as [|a l IH]; intros H; [reflexivity|]. cbn [filter].
  rewrite (H a (or_introl eq_refl)). f_equal. apply IH.
  intros b Hb. apply H. right. exact Hb.
Qed.

Lemma Forall2_map_right {A B C : Type} (P : A -> B -> Prop) (Q : A -> C -> Prop)
    (g : B -> C) (l : list A) (l' : list B) :
  (forall a b, P a b -> Q a (g b)) ->
  Forall2 P l l' -> Forall2 Q l (map g l').
Proof.
  intros H. induction 1 as [|a b l l' Hab _ IH]; cbn [map]; constructor; auto.
Qed.

Lemma fresh_document_id (db : DB) (did : UUID) (d : Document.t) :
  has_document db did = false -> In d (documents db) -> Document.doc_id d <> did.
Proof.
  intros Hf Hin Heq. apply (has_document_false db did Hf).
  rewrite <- Heq. apply in_map. exact Hin.
Qed.

(** What was uploaded can be read back: after a successful upload on a
    reachable database, get_contract with the id of the reply gives the
    uploader the document, named as the file, "Active" and "Low", with one
    chunk per parsed chunk, in the parser's order, carrying its text, its
    metadata and, as its page, what the Integer column made of the "page"
    of the metadata (1 when there is none); any other user gets 404 for the
    same id. *)
Theorem upload_then_get_contract
    (parse : Env -> list Byte.byte -> string -> M Parsed.t)
    (hashpw : string -> string -> Result string) (checkpw : string -> string -> Result bool)
    (env : Env) (db db' : DB) (file : UploadFile.t) (u : User.t)
    (reply : UploadReply.t) :
  reachable hashpw checkpw db ->
  (forall c fn, session_free (parse env c fn)) ->
  run db (upload_contract_with parse env file u) = (Ok reply, db') ->
  exists parsed s1 views,
    parse env (UploadFile.content file) (UploadFile.filename file) (begin db)
    = (Ok parsed, s1)
    /\ (forall env',
          run db' (get_contract env' (UuidText (UploadReply.document_id reply)) u)
          = (Ok (ContractDetail.mk (UploadReply.document_id reply)
                                   (UploadFile.filename file) "Active" "Low" views),
             db'))
    /\ Forall2 (fun chunk_data v =>
                  ChunkView.text v = Parsed.text chunk_data
                  /\ ChunkView.metadata v = Parsed.metadata chunk_data
                  /\ integer_column env
                       (dict_get (Parsed.metadata chunk_data) "page" (PyInt 1))
                     = Ok (ChunkView.page v))
               (Parsed.chunks parsed) views
    /\ forall env' v, User.user_id v <> User.user_id u ->
         serve db' (get_contract env' (UuidText (UploadReply.document_id reply)) v)
         = (ReplyError 404 "Contract not found", db').
Proof.
  intros Hr Hfree Hrun. unfold run in Hrun.
  pose proof (upload_outcome_full parse env file u (begin db) Hfree eq_refl eq_refl)
    as H.
  destruct (upload_contract_with parse env file u (begin db)) as [[r|e] s'];
    [|discriminate].
  injection Hrun as Hreply Hdb. subst r db'.
  destruct H as [parsed [s1 [document [cs [Hp [Hfresh [Hduid [Hfn [Hst [Hrisk
                  [_ [Hus [Hd [Hk [Hf Hre]]]]]]]]]]]]]]].
  cbn [begin committed] in Hfresh, Hus, Hd, Hk. subst reply.
  cbn [UploadReply.document_id].
  destruct (reachable_invariant hashpw checkpw db Hr) as [_ [Hown _]].
  exists parsed, s1, (map chunk_view cs). split; [exact Hp|]. split; [|split].
  - intros env'. unfold run, get_contract, bind, db_query, id_of_text.
    cbn [begin working committed lift_result ret].
    rewrite Hd, Hk.
    rewrite (find_snoc _ (documents db) document).
    + cbn [ret]. rewrite Hfn, Hst, Hrisk. rewrite filter_app.
      rewrite (filter_none _ (chunks db)), (filter_all _ cs); [reflexivity| |].
      * intros c Hc. apply N.eqb_eq.
        clear - Hf Hc. induction Hf as [|a c0 l cs' Hac _ IH];
          [contradiction|].
        destruct Hc as [<-|Hc]; [apply Hac|apply IH; exact Hc].
      * intros c Hc. apply N.eqb_neq.
        destruct (Hown c Hc) as [d0 [Hd0 [Hid0 _]]]. rewrite <- Hid0.
        apply (fresh_document_id db _ d0 Hfresh Hd0).
    + intros d0 Hd0. apply andb_false_intro1. apply N.eqb_neq.
      apply (fresh_document_id db _ d0 Hfresh Hd0).
    + rewrite Hduid, !N.eqb_refl. reflexivity.
  - apply (Forall2_map_right (persisted_from env document u)); [|exact Hf].
    intros a c [_ [_ [Ht [_ [Hm Hpg]]]]]. cbn. auto.
  - intros env' v Hv.
    apply (get_contract_404 env' _ v (UuidText (Document.doc_id document))
             (Document.doc_id document) eq_refl).
    intros d0 Hd0 Hid Huser.
    rewrite Hd in Hd0. apply in_app_or in Hd0. destruct Hd0 as [Hd0|[<-|[]]].
    + exact (fresh_document_id db _ d0 Hfresh Hd0 Hid).
    + apply Hv. congruence.
Qed.

Lemma demo_db2_reachable : reachable Demo.hashpw Demo.checkpw Demo.db2.
Proof.
  unfold Demo.db2, Demo.db1. repeat apply reachable_step. apply reachable_empty.
Qed.

Lemma demo_upload_run :
  run Demo.db2 (upload_contract (Demo.env_at 300%N 3000%Z) Demo.lease Demo.alice)
  = (Ok (UploadReply.mk 303%N "lease.pdf" 2),
     mkDB (users Demo.db2)
          (documents Demo.db2
           ++ [Document.mk 303%N 100%N "lease.pdf" 3000%Z None "Active" "Low"])
          (chunks Demo.db2
           ++ mock_chunk_rows (Demo.env_at 300%N 3000%Z) 303%N 100%N "lease.pdf")).
Proof.
  pose proof (upload_contract_run (Demo.env_at 300%N 3000%Z) Demo.db2 Demo.lease
                Demo.alice) as H.
  apply H; try (vm_compute; reflexivity). discriminate.
Qed.

Lemma upload_then_get_contract_witness :
  exists parsed s1 views,
    mock_llamacloud_parse (Demo.env_at 300%N 3000%Z)
      (UploadFile.content Demo.lease) (UploadFile.filename Demo.lease)
      (begin Demo.db2)
    = (Ok parsed, s1)
    /\ (forall env',
          run (mkDB (users Demo.db2)
                    (documents Demo.db2
                     ++ [Document.mk 303%N 100%N "lease.pdf" 3000%Z None
                                     "Active" "Low"])
                    (chunks Demo.db2
                     ++ mock_chunk_rows (Demo.env_at 300%N 3000%Z) 303%N 100%N
                                        "lease.pdf"))
              (get_contract env' (UuidText 303%N) Demo.alice)
          = (Ok (ContractDetail.mk 303%N "lease.pdf" "Active" "Low" views),
             mkDB (users Demo.db2)
                  (documents Demo.db2
                   ++ [Document.mk 303%N 100%N "lease.pdf" 3000%Z None
                                   "Active" "Low"])
                  (chunks Demo.db2
                   ++ mock_chunk_rows (Demo.env_at 300%N 3000%Z) 303%N 100%N
                                      "lease.pdf")))
    /\ Forall2 (fun chunk_data v =>
                  ChunkView.text v = Parsed.text chunk_data
                  /\ ChunkView.metadata v = Parsed.metadata chunk_data
                  /\ integer_column (Demo.env_at 300%N 3000%Z)
                       (dict_get (Parsed.metadata chunk_data) "page" (PyInt 1))
                     = Ok (ChunkView.page v))
               (Parsed.chunks parsed) views
    /\ forall env' v, User.user_id v <> User.user_id Demo.alice ->
         serve (mkDB (users Demo.db2)
                     (documents Demo.db2
                      ++ [Document.mk 303%N 100%N "lease.pdf" 3000%Z None
                                      "Active" "Low"])
                     (chunks Demo.db2
                      ++ mock_chunk_rows (Demo.env_at 300%N 3000%Z) 303%N 100%N
                                         "lease.pdf"))
               (get_contract env' (UuidText 303%N) v)
         = (ReplyError 404 "Contract not found",
            mkDB (users Demo.db2)
                 (documents Demo.db2
                  ++ [Document.mk 303%N 100%N "lease.pdf" 3000%Z None
                                  "Active" "Low"])
                 (chunks Demo.db2
                  ++ mock_chunk_rows (Demo.env_at 300%N 3000%Z) 303%N 100%N
                                     "lease.pdf")).
Proof.
  exact (upload_then_get_contract mock_llamacloud_parse Demo.hashpw Demo.checkpw
           (Demo.env_at 300%N 3000%Z) Demo.db2 _ Demo.lease Demo.alice _
           demo_db2_reachable
           (mock_llamacloud_parse_session_free (Demo.env_at 300%N 3000%Z))
           demo_upload_run).
Defined.

(** A parser that gives the page as the text "7": the chunk that is read
    back is on page 7, the integer. *)
Example upload_text_page_read_back :
  exists reply db' views,
    run Demo.db2
        (upload_contract_with Demo.parse_text_page (Demo.env_at 300%N 3000%Z)
                              Demo.lease Demo.alice)
    = (Ok reply, db')
    /\ run db' (get_contract (Demo.env_at 600%N 6000%Z)
                             (UuidText (UploadReply.document_id reply)) Demo.alice)
       = (Ok (ContractDetail.mk (UploadReply.document_id reply) "lease.pdf"
                                "Active" "Low" views), db')
    /\ map ChunkView.page views = [PyInt 7]
    /\ map (fun v => dict_lookup "page" (ChunkView.metadata v)) views
       = [Some (PyStr "7")].
Proof.
  do 3 eexists. split; [vm_compute; reflexivity|].
  split; [vm_compute; reflexivity|]. split; reflexivity.
Qed.

(** After a successful upload the uploader's list of contracts is the list
    before it with the new document, "Active" and "Low", added at its end;
    the list of every other user is what it was. *)
Theorem upload_then_list_contracts
    (parse : Env -> list Byte.byte -> string -> M Parsed.t)
    (env : Env) (db db' : DB) (file : UploadFile.t) (u : User.t)
    (reply : UploadReply.t) :
  (forall c fn, session_free (parse env c fn)) ->
  run db (upload_contract_with parse env file u) = (Ok reply, db') ->
  exists l t,
    run db (list_contracts u) = (Ok l, db)
    /\ run db' (list_contracts u)
       = (Ok (l ++ [ContractSummary.mk (UploadReply.document_id reply)
                                       (UploadFile.filename file) t
                                       "Active" "Low"]),
          db')
    /\ forall v, User.user_id v <> User.user_id u ->
         fst (run db' (list_contracts v)) = fst (run db (list_contracts v)).
Proof.
  intros Hfree Hrun. unfold run in Hrun.
  pose proof (upload_outcome_full parse env file u (begin db) Hfree eq_refl eq_refl)
    as H.
  destruct (upload_contract_with parse env file u (begin db)) as [[r|e] s'];
    [|discriminate].
  injection Hrun as Hreply Hdb. subst r db'.
  destruct H as [parsed [s1 [document [cs [Hp [Hfresh [Hduid [Hfn [Hst [Hrisk
                  [_ [Hus [Hd [Hk [Hf Hre]]]]]]]]]]]]]]].
  cbn [begin committed] in Hd. subst reply. cbn [UploadReply.document_id].
  eexists. exists (Document.uploaded_on document).
  split; [apply list_contracts_run|]. split.
  - rewrite list_contracts_run, Hd, filter_app, map_app. cbn [filter].
    rewrite Hduid, N.eqb_refl. cbn [map]. unfold summary_of at 2.
    rewrite Hfn, Hst, Hrisk. reflexivity.
  - intros v Hv. rewrite !list_contracts_run, Hd, filter_app. cbn [filter fst].
    rewrite Hduid. apply not_eq_sym in Hv. apply N.eqb_neq in Hv. rewrite Hv.
    rewrite app_nil_r. reflexivity.
Qed.

Lemma upload_then_list_contracts_witness :
  exists l t,
    run Demo.db2 (list_contracts Demo.alice) = (Ok l, Demo.db2)
    /\ run (mkDB (users Demo.db2)
                 (documents Demo.db2
                  ++ [Document.mk 303%N 100%N "lease.pdf" 3000%Z None
                                  "Active" "Low"])
                 (chunks Demo.db2
                  ++ mock_chunk_rows (Demo.env_at 300%N 3000%Z) 303%N 100%N
                                     "lease.pdf"))
           (list_contracts Demo.alice)
       = (Ok (l ++ [ContractSummary.mk 303%N "lease.pdf" t "Active" "Low"]),
          mkDB (users Demo.db2)
               (documents Demo.db2
                ++ [Document.mk 303%N 100%N "lease.pdf" 3000%Z None
                                "Active" "Low"])
               (chunks Demo.db2
                ++ mock_chunk_rows (Demo.env_at 300%N 3000%Z) 303%N 100%N
                                   "lease.pdf"))
    /\ forall v, User.user_id v <> User.user_id Demo.alice ->
         fst (run (mkDB (users Demo.db2)
                        (documents Demo.db2
                         ++ [Document.mk 303%N 100%N "lease.pdf" 3000%Z None
                                         "Active" "Low"])
                        (chunks Demo.db2
                         ++ mock_chunk_rows (Demo.env_at 300%N 3000%Z) 303%N
                                            100%N "lease.pdf"))
                  (list_contracts v))
         = fst (run Demo.db2 (list_contracts v)).
Proof.
  exact (upload_then_list_contracts mock_llamacloud_parse
           (Demo.env_at 300%N 3000%Z) Demo.db2 _ Demo.lease Demo.alice _
           (mock_llamacloud_parse_session_free (Demo.env_at 300%N 3000%Z))
           demo_upload_run).
Defined.

(** ** upload_contract, the file *)

(** A file whose content type is not, letter for letter, one of the three
    allowed types is refused with 400 "Unsupported file type" before
    anything is parsed or written: the database stays as it was. *)
Theorem upload_unsupported_type_rejected (hashpw : string -> string -> Result string)
    (checkpw : string -> string -> Result bool) (env : Env) (db : DB)
    (sub : IdText) (uid : UUID) (file : UploadFile.t) :
  id_of_text env sub = Ok uid ->
  has_user db uid = true ->
  ~ In (UploadFile.content_type file) ALLOWED_CONTENT_TYPES ->
  handle hashpw checkpw env db (Upload (Payload (Some sub)) file)
  = (ReplyError 400 "Unsupported file type", db).
Proof.
  intros Hsub Hu Hct.
  unfold has_user in Hu. destruct (find_existsb_true _ _ Hu) as [u Hfind].
  rewrite (handle_upload_authenticated hashpw checkpw env db sub uid file u
             Hsub Hfind).
  unfold run, upload_contract, upload_contract_with.
  destruct (existsb (String.eqb (UploadFile.content_type file))
                    ALLOWED_CONTENT_TYPES) eqn:E; [|reflexivity].
  exfalso. apply Hct. apply existsb_exists in E. destruct E as [t [Hin Heq]].
  apply String.eqb_eq in Heq. rewrite Heq. exact Hin.
Qed.

Lemma upload_unsupported_type_rejected_witness :
  handle Demo.hashpw Demo.checkpw (Demo.env_at 300%N 3000%Z) Demo.db2
         (Upload (Payload (Some (UuidText 100%N)))
                 (UploadFile.mk "lease.pdf" "Application/PDF" []))
  = (ReplyError 400 "Unsupported file type", Demo.db2).
Proof.
  pose proof (upload_unsupported_type_rejected Demo.hashpw Demo.checkpw
                (Demo.env_at 300%N 3000%Z) Demo.db2 (UuidText 100%N) 100%N
                (UploadFile.mk "lease.pdf" "Application/PDF" [])) as H.
  apply H.
  - reflexivity.
  - vm_compute. reflexivity.
  - cbn. intros [H1|[H1|[H1|[]]]]; discriminate.
Defined.

(** The bytes of the uploaded file play no part: two uploads that differ
    only in the content of the file get the same reply and leave the same
    database (the mock parser does not read the file, and the route stores
    none of it). *)
Theorem upload_ignores_file_content (hashpw : string -> string -> Result string)
    (checkpw : string -> string -> Result bool) (env : Env) (db : DB)
    (credentials : Credentials) (filename content_type : string)
    (content1 content2 : list Byte.byte) :
  handle hashpw checkpw env db
         (Upload credentials (UploadFile.mk filename content_type content1))
  = handle hashpw checkpw env db
           (Upload credentials (UploadFile.mk filename content_type content2)).
Proof. reflexivity. Qed.
